(** * Dashboard aggregation, reference-data cache and transaction command
      of the lobster inventory dashboard (src/app/page.jsx,
      src/app/stok/page.jsx, src/app/transaksi/page.jsx, src/lib/cache.js). *)

From Stdlib Require Import List String Ascii ZArith QArith Lia Bool.
Import ListNotations.
Open Scope string_scope.
Open Scope Z_scope.

(* ------------------------------------------------------------------ *)
(** ** Rows as the remote store returns them *)

(** A [lobster_types] row: [{ id, name }]. *)
Record LobsterType := mkLobsterType { lt_id : Z; lt_name : string }.

(** An [inventory] row as selected by [select('type_id, quantity')];
    [quantity] is nullable on the wire, hence [option Z]. *)
Record InventoryRow := mkInventoryRow { inv_type_id : Z; inv_quantity : option Z }.

(** [row.quantity || 0] *)
Definition qty_or_zero (q : option Z) : Z :=
  match q with Some n => n | None => 0 end.

(** [lobsterTypes.find((t) => t.id === id)] *)
Definition find_type_by_id (types : list LobsterType) (id : Z) : option LobsterType :=
  find (fun t => Z.eqb (lt_id t) id) types.

(** [lobsterTypes.find((t) => t.name === name)?.id] *)
Definition find_id_by_name (types : list LobsterType) (name : string) : option Z :=
  option_map lt_id (find (fun t => String.eqb (lt_name t) name) types).

(** [type?.name || 'Unknown'] : a missing type or an empty name (falsy) gives
    ["Unknown"]. *)
Definition type_label (types : list LobsterType) (id : Z) : string :=
  match find_type_by_id types id with
  | Some t => if String.eqb (lt_name t) "" then "Unknown"%string else lt_name t
  | None => "Unknown"%string
  end.

(* ------------------------------------------------------------------ *)
(** ** Plain JS objects used as string-keyed accumulators *)

(** A plain object [{}] used as a map from string keys to numbers, kept as an
    association list in insertion order (the order of [Object.entries] for
    non-numeric keys). *)
Definition js_obj := list (string * Z).

(** [acc[k]], [undefined] as [None]. *)
Fixpoint obj_get (k : string) (o : js_obj) : option Z :=
  match o with
  | [] => None
  | (k', v) :: o' => if String.eqb k k' then Some v else obj_get k o'
  end.

(** [acc[k] = v]: overwrite an existing property in place, append a new one. *)
Fixpoint obj_set (k : string) (v : Z) (o : js_obj) : js_obj :=
  match o with
  | [] => [(k, v)]
  | (k', v') :: o' => if String.eqb k k' then (k', v) :: o' else (k', v') :: obj_set k v o'
  end.

(** [acc[k] = (acc[k] || 0) + v] *)
Definition obj_add (k : string) (v : Z) (o : js_obj) : js_obj :=
  obj_set k (qty_or_zero (obj_get k o) + v) o.

(** Sum of the values of [Object.entries(o)]. *)
Definition sum_values (o : js_obj) : Z := fold_right (fun kv s => snd kv + s) 0 o.

(** The value under key [k], [undefined] read as 0. *)
Definition obj_val (k : string) (o : js_obj) : Z := qty_or_zero (obj_get k o).

(** [{ lobster_type, total_quantity }] *)
Record StockByType := mkStockByType { sbt_lobster_type : string; sbt_total_quantity : Z }.

(** [Object.entries(grouped).map(([name, total_quantity]) => ({ ... }))] *)
Definition entries_to_stock (o : js_obj) : list StockByType :=
  map (fun kv => mkStockByType (fst kv) (snd kv)) o.

(* ------------------------------------------------------------------ *)
(** ** Stock aggregation (src/app/page.jsx, fetchDashboardData, l.155-170) *)

Module Dashboard.

(** [inventoryData.reduce((sum, row) => sum + (row.quantity || 0), 0)] *)
Definition total (rows : list InventoryRow) : Z :=
  fold_left (fun sum row => sum + qty_or_zero (inv_quantity row)) rows 0.

(** [inventoryData.reduce((acc, row) => { ... acc[typeName] = ... }, {})] *)
Definition grouped (types : list LobsterType) (rows : list InventoryRow) : js_obj :=
  fold_left (fun acc row =>
               obj_add (type_label types (inv_type_id row)) (qty_or_zero (inv_quantity row)) acc)
            rows [].

Definition stockByTypeArray (types : list LobsterType) (rows : list InventoryRow)
  : list StockByType :=
  entries_to_stock (grouped types rows).

End Dashboard.

(** ** Stock aggregation of the stock page (src/app/stok/page.jsx,
       fetchStockByType, l.130-142) *)

Module StockPage.

(** [const typeName = type?.name; if (typeName) acc[typeName] = ...] :
    rows whose type does not resolve, or resolves to an empty name, are
    skipped. *)
Definition resolved_name (types : list LobsterType) (id : Z) : option string :=
  match find_type_by_id types id with
  | Some t => if String.eqb (lt_name t) "" then None else Some (lt_name t)
  | None => None
  end.

Definition grouped (types : list LobsterType) (rows : list InventoryRow) : js_obj :=
  fold_left (fun acc row =>
               match resolved_name types (inv_type_id row) with
               | Some n => obj_add n (qty_or_zero (inv_quantity row)) acc
               | None => acc
               end)
            rows [].

Definition stockByTypeArray (types : list LobsterType) (rows : list InventoryRow)
  : list StockByType :=
  entries_to_stock (grouped types rows).

End StockPage.

(* ------------------------------------------------------------------ *)
(** ** Calendar dates as [Date] keeps them in local time *)

(** The local calendar fields of a [Date]: [getFullYear()], [getMonth()]
    (0 = January) and [getDate()]. The time of day is left untouched by
    [setMonth] and plays no part in the month buckets, so it is not kept. *)
Record LocalDate := mkLocalDate { d_year : Z; d_month : Z; d_day : Z }.

Definition is_leap (y : Z) : bool :=
  (Z.eqb (y mod 4) 0 && negb (Z.eqb (y mod 100) 0)) || Z.eqb (y mod 400) 0.

(** Number of days of month [m] (0-based) of year [y]. *)
Definition days_in_month (y m : Z) : Z :=
  if Z.eqb m 1 then (if is_leap y then 29 else 28)
  else if existsb (Z.eqb m) [3; 5; 8; 10] then 30 else 31.

(** Day [d] counted from the first of month [m] of year [y], as MakeDay does:
    a day past the end of the month carries into the following months. *)
Fixpoint carry_day (fuel : nat) (y m d : Z) : LocalDate :=
  match fuel with
  | O => mkLocalDate y m d
  | S fuel' =>
      if Z.leb d (days_in_month y m) then mkLocalDate y m d
      else if Z.eqb m 11 then carry_day fuel' (y + 1) 0 (d - days_in_month y m)
      else carry_day fuel' y (m + 1) (d - days_in_month y m)
  end.

(** [date.setMonth(m)]: the month argument is taken modulo 12 with the
    quotient added to the year, and the day of month is kept, overflowing
    into the next month when the target month is shorter. *)
Definition setMonth (dt : LocalDate) (m : Z) : LocalDate :=
  carry_day (Z.to_nat (d_day dt)) (d_year dt + m / 12) (m mod 12) (d_day dt).

(** [date.toLocaleString('en-US', { month: 'long' })] *)
Definition month_name (m : Z) : string :=
  nth (Z.to_nat m)
      ["January"; "February"; "March"; "April"; "May"; "June"; "July";
       "August"; "September"; "October"; "November"; "December"]%string "".

(** [{ month, year, monthIndex }] *)
Record MonthBucket := mkMonthBucket { b_month : string; b_year : Z; b_monthIndex : Z }.

(** [Array.from({ length: 6 }, (_, i) => { const date = new Date();
    date.setMonth(date.getMonth() - i); ... }).reverse()]
    (src/app/page.jsx l.207-215), [now] being [new Date()]. *)
Definition months (now : LocalDate) : list MonthBucket :=
  rev (map (fun i =>
              let date := setMonth now (d_month now - Z.of_nat i) in
              mkMonthBucket (month_name (d_month date)) (d_year date) (d_month date))
           (seq 0 6)).

(** Months counted from year 0: consecutive calendar months differ by one. *)
Definition month_number (y m : Z) : Z := y * 12 + m.

(* ------------------------------------------------------------------ *)
(** ** Transaction rows and the incoming / outgoing totals *)

(** A [transactions] row: [transaction_type], nullable [quantity], [type_id]
    and the local calendar fields of [new Date(t.transaction_date)]. *)
Record Transaction := mkTransaction {
  tx_type : string; tx_quantity : option Z; tx_type_id : Z; tx_date : LocalDate }.

(** [['DISTRIBUTE', 'DEATH', 'DAMAGED'].includes(type)] *)
Definition is_outgoing (ty : string) : bool :=
  existsb (String.eqb ty) ["DISTRIBUTE"; "DEATH"; "DAMAGED"]%string.

Definition is_add (ty : string) : bool := String.eqb ty "ADD".

(** [rows.filter(...).reduce((sum, t) => sum + (t.quantity || 0), 0)] *)
Definition sum_quantity (rows : list Transaction) : Z :=
  fold_left (fun sum t => sum + qty_or_zero (tx_quantity t)) rows 0.

Module DashboardTx.

(** [incoming] of src/app/page.jsx l.181-183 and l.223-225 *)
Definition incoming (rows : list Transaction) : Z :=
  sum_quantity (filter (fun t => is_add (tx_type t)) rows).

(** [outgoing] of src/app/page.jsx l.184-190 and l.226-232:
    [Math.abs] is applied to the sum. *)
Definition outgoing (rows : list Transaction) : Z :=
  Z.abs (sum_quantity (filter (fun t => is_outgoing (tx_type t)) rows)).

End DashboardTx.

Module TransaksiTx.

(** [outgoing] of src/app/transaksi/page.jsx l.215-220:
    [Math.abs] is applied to each row. *)
Definition outgoing (rows : list Transaction) : Z :=
  fold_left (fun sum t =>
               if is_outgoing (tx_type t) then sum + Z.abs (qty_or_zero (tx_quantity t))
               else sum) rows 0.

End TransaksiTx.

(** The outgoing total in the words of the spec:
    [sum(|quantity|) where transaction_type in {DISTRIBUTE, DEATH, DAMAGED}]. *)
Definition outgoing_spec (rows : list Transaction) : Z :=
  fold_right Z.add 0
    (map (fun t => Z.abs (qty_or_zero (tx_quantity t)))
         (filter (fun t => is_outgoing (tx_type t)) rows)).

(* ------------------------------------------------------------------ *)
(** ** One refresh cycle of the dashboard (src/app/page.jsx, l.76-256) *)

(** What a remote call resolves to: [data], or an [error] (a timed-out
    [Promise.race] is an error as well). *)
Inductive remote (A : Type) : Type :=
| Ok (a : A)
| Err (msg : string).
Arguments Ok {A} a.
Arguments Err {A} msg.

(** A [weight_classes] row. *)
Record WeightClass := mkWeightClass { wc_id : Z; wc_weight_range : string }.

(** A row of [select('weight_class_id, quantity, weight_classes!inner(weight_range)')]. *)
Record BreakdownRow := mkBreakdownRow { br_weight_range : option string; br_quantity : option Z }.

(** [{ weight_range, quantity }] *)
Record WeightEntry := mkWeightEntry { we_weight_range : string; we_quantity : Z }.

(** [{ lobster_type, quantity }] of the pie chart. *)
Record PieEntry := mkPieEntry { pie_lobster_type : string; pie_quantity : Z }.

(** [{ month, Masuk, Keluar }] of the bar chart. *)
Record MonthPoint := mkMonthPoint { mp_month : string; mp_Masuk : Z; mp_Keluar : Z }.

(** The component state of [Dashboard] that [fetchDashboardData] writes. *)
Record DashState := mkDashState {
  totalStock : Z;
  incomingThisMonth : Z;
  outgoingThisMonth : Z;
  stockByType : list StockByType;
  weightClasses : list (string * list WeightEntry);
  chartData : list MonthPoint;
  pieChartData : list PieEntry;
  loading : bool;
  chartLoading : bool;
  error : option string;
  lastUpdated : option string }.

(** The answers of the remote store during one cycle. [r_breakdown id] is the
    outcome of the [Promise.race] in [fetchWeightClasses(id, _)]. *)
Record DashResponses := mkDashResponses {
  r_lobsterTypes : remote (list LobsterType);
  r_weightClasses : remote (list WeightClass);
  r_inventory : remote (list InventoryRow);
  r_transactions : remote (list Transaction);
  r_pie : remote (list Transaction);
  r_monthly : remote (list Transaction);
  r_breakdown : Z -> remote (list BreakdownRow);
  r_now : LocalDate;
  r_clock : string }.

(** The displayed aggregates. *)
Record DashAggregates := mkDashAggregates {
  a_total : Z; a_stockByType : list StockByType; a_incoming : Z; a_outgoing : Z;
  a_pie : list PieEntry; a_chart : list MonthPoint;
  a_weightClasses : list (string * list WeightEntry) }.

Definition aggregates (s : DashState) : DashAggregates :=
  mkDashAggregates (totalStock s) (stockByType s) (incomingThisMonth s)
    (outgoingThisMonth s) (pieChartData s) (chartData s) (weightClasses s).

Module DashM.

(** State threaded through the [async] body, with [throw] as [Throw]. *)
Inductive outcome (A : Type) : Type :=
| Done (a : A)
| Throw (msg : string).
Arguments Done {A} a.
Arguments Throw {A} msg.

Definition M (A : Type) : Type := DashState -> DashState * outcome A.

Definition ret {A} (a : A) : M A := fun s => (s, Done a).

Definition bind {A B} (m : M A) (k : A -> M B) : M B :=
  fun s => match m s with
           | (s', Done a) => k a s'
           | (s', Throw e) => (s', Throw e)
           end.

Definition throw {A} (msg : string) : M A := fun s => (s, Throw msg).

Definition modify (f : DashState -> DashState) : M unit := fun s => (f s, Done tt).

(** [const { data, error } = await ...; if (error) throw error;] *)
Definition await_data {A} (r : remote A) : M A :=
  match r with Ok a => ret a | Err e => throw e end.

End DashM.

Notation "x <- m ;; k" := (DashM.bind m (fun x => k))
  (at level 61, m at next level, right associativity).
Notation "m ;;; k" := (DashM.bind m (fun _ => k))
  (at level 61, right associativity).

(** Field updates of [DashState]. *)
Definition set_loading (b : bool) (s : DashState) : DashState :=
  mkDashState (totalStock s) (incomingThisMonth s) (outgoingThisMonth s) (stockByType s)
    (weightClasses s) (chartData s) (pieChartData s) b (chartLoading s) (error s) (lastUpdated s).
Definition set_chartLoading (b : bool) (s : DashState) : DashState :=
  mkDashState (totalStock s) (incomingThisMonth s) (outgoingThisMonth s) (stockByType s)
    (weightClasses s) (chartData s) (pieChartData s) (loading s) b (error s) (lastUpdated s).
Definition set_error (e : option string) (s : DashState) : DashState :=
  mkDashState (totalStock s) (incomingThisMonth s) (outgoingThisMonth s) (stockByType s)
    (weightClasses s) (chartData s) (pieChartData s) (loading s) (chartLoading s) e (lastUpdated s).
Definition set_weightClasses_with
  (f : list (string * list WeightEntry) -> list (string * list WeightEntry)) (s : DashState)
  : DashState :=
  mkDashState (totalStock s) (incomingThisMonth s) (outgoingThisMonth s) (stockByType s)
    (f (weightClasses s)) (chartData s) (pieChartData s) (loading s) (chartLoading s) (error s)
    (lastUpdated s).

(** The successful commit of l.237-249: every aggregate, [error] and
    [lastUpdated] set in one go. *)
Definition commit (total : Z) (sbt : list StockByType) (inc out : Z) (pie : list PieEntry)
  (chart : list MonthPoint) (clock : string) (s : DashState) : DashState :=
  mkDashState total inc out sbt (weightClasses s) chart pie (loading s) (chartLoading s)
    None (Some clock).

(** [(prev) => ({ ...prev, [k]: v })] on a string-keyed object. *)
Fixpoint wc_set (k : string) (v : list WeightEntry) (o : list (string * list WeightEntry))
  : list (string * list WeightEntry) :=
  match o with
  | [] => [(k, v)]
  | (k', v') :: o' => if String.eqb k k' then (k', v) :: o' else (k', v') :: wc_set k v o'
  end.

Fixpoint wc_get (k : string) (o : list (string * list WeightEntry)) : option (list WeightEntry) :=
  match o with
  | [] => None
  | (k', v) :: o' => if String.eqb k k' then Some v else wc_get k o'
  end.

Module DashboardCycle.
Import DashM.

(** [{ weight_range: row.weight_classes?.weight_range || 'Unknown',
       quantity: row.quantity || 0 }] *)
Definition to_weight_entry (row : BreakdownRow) : WeightEntry :=
  mkWeightEntry
    (match br_weight_range row with
     | Some w => if String.eqb w "" then "Unknown" else w
     | None => "Unknown"
     end)
    (qty_or_zero (br_quantity row)).

(** [fetchWeightClasses(typeId, typeName)] (l.77-106): its [try]/[catch]
    turns an error or the 3 s timeout into an empty breakdown, so it never
    throws. *)
Definition fetchWeightClasses (r : DashResponses) (typeId : Z) (typeName : string) : M unit :=
  match r_breakdown r typeId with
  | Ok rows => modify (set_weightClasses_with (wc_set typeName (map to_weight_entry rows)))
  | Err _ => modify (set_weightClasses_with (wc_set typeName []))
  end.

(** l.173-178: [typeId ? fetchWeightClasses(typeId, lobster_type) : null]
    for every entry ([0] is falsy). *)
Fixpoint fetch_all_weight_classes (r : DashResponses) (types : list LobsterType)
  (sbt : list StockByType) : M unit :=
  match sbt with
  | [] => ret tt
  | e :: sbt' =>
      match find_id_by_name types (sbt_lobster_type e) with
      | Some id => if Z.eqb id 0 then ret tt else fetchWeightClasses r id (sbt_lobster_type e)
      | None => ret tt
      end ;;;
      fetch_all_weight_classes r types sbt'
  end.

(** l.193-204: [acc[typeName] = (acc[typeName] || 0) + Math.abs(row.quantity || 0)] *)
Definition pieChartArray (types : list LobsterType) (rows : list Transaction) : list PieEntry :=
  map (fun kv => mkPieEntry (fst kv) (snd kv))
    (fold_left (fun acc row =>
                  obj_add (type_label types (tx_type_id row)) (Z.abs (qty_or_zero (tx_quantity row))) acc)
               rows []).

(** l.217-235 *)
Definition monthlyChartData (now : LocalDate) (rows : list Transaction) : list MonthPoint :=
  map (fun b =>
         let monthTransactions :=
           filter (fun t => Z.eqb (d_year (tx_date t)) (b_year b)
                            && Z.eqb (d_month (tx_date t)) (b_monthIndex b)) rows in
         mkMonthPoint (b_month b) (DashboardTx.incoming monthTransactions)
           (DashboardTx.outgoing monthTransactions))
      (months now).

(** The body of the [try] block (l.114-249). The two cached reads and the
    four queries are awaited with [Promise.all]; the query errors are then
    checked in the order of the source. *)
Definition body (r : DashResponses) : M unit :=
  lobsterTypes <- await_data (r_lobsterTypes r) ;;
  _ <- await_data (r_weightClasses r) ;;
  inventoryData <- await_data (r_inventory r) ;;
  transactionsData <- await_data (r_transactions r) ;;
  pieData <- await_data (r_pie r) ;;
  monthlyData <- await_data (r_monthly r) ;;
  let total := Dashboard.total inventoryData in
  let sbt := Dashboard.stockByTypeArray lobsterTypes inventoryData in
  fetch_all_weight_classes r lobsterTypes sbt ;;;
  modify (commit total sbt
            (DashboardTx.incoming transactionsData) (DashboardTx.outgoing transactionsData)
            (pieChartArray lobsterTypes pieData)
            (monthlyChartData (r_now r) monthlyData) (r_clock r)).

(** [fetchDashboardData]: [setLoading(true)], the body, [catch] records the
    message, [finally] clears both loading flags. *)
Definition fetchDashboardData (r : DashResponses) (s : DashState) : DashState :=
  let (s2, o) := body r (set_loading true s) in
  let s3 := match o with Done _ => s2 | Throw m => set_error (Some m) s2 end in
  set_chartLoading false (set_loading false s3).

End DashboardCycle.

(* ------------------------------------------------------------------ *)
(** ** Reference data cache (src/lib/cache.js) *)

Module RefCache.

(** [const cache = { lobsterTypes: null, weightClasses: null }] *)
Record Cache := mkCache {
  c_lobsterTypes : option (list LobsterType);
  c_weightClasses : option (list WeightClass) }.

Definition empty_cache : Cache := mkCache None None.

(** The module-scoped cache together with the number of round trips made so
    far to each reference table. *)
Record World := mkWorld { w_cache : Cache; w_lt_fetches : nat; w_wc_fetches : nat }.

(** The remote store: the answer to the [n]-th query of [lobster_types]
    (resp. [weight_classes]); [Ok None] is a [null] [data] without error. *)
Record Server := mkServer {
  srv_lobster_types : nat -> remote (option (list LobsterType));
  srv_weight_classes : nat -> remote (option (list WeightClass)) }.

(** [getLobsterTypes] (l.6-15). An array, even [[]], is truthy, so any
    stored sequence is returned without a round trip; an error is thrown
    without touching the cache. *)
Definition getLobsterTypes (srv : Server) (w : World) : World * remote (list LobsterType) :=
  match c_lobsterTypes (w_cache w) with
  | Some l => (w, Ok l)
  | None =>
      let n := w_lt_fetches w in
      let w' := mkWorld (w_cache w) (S n) (w_wc_fetches w) in
      match srv_lobster_types srv n with
      | Err e => (w', Err e)
      | Ok data =>
          let l := match data with Some d => d | None => [] end in
          (mkWorld (mkCache (Some l) (c_weightClasses (w_cache w))) (S n) (w_wc_fetches w), Ok l)
      end
  end.

(** [getWeightClasses] (l.17-26) *)
Definition getWeightClasses (srv : Server) (w : World) : World * remote (list WeightClass) :=
  match c_weightClasses (w_cache w) with
  | Some l => (w, Ok l)
  | None =>
      let n := w_wc_fetches w in
      let w' := mkWorld (w_cache w) (w_lt_fetches w) (S n) in
      match srv_weight_classes srv n with
      | Err e => (w', Err e)
      | Ok data =>
          let l := match data with Some d => d | None => [] end in
          (mkWorld (mkCache (c_lobsterTypes (w_cache w)) (Some l)) (w_lt_fetches w) (S n), Ok l)
      end
  end.

(** [clearCache] (l.28-31) *)
Definition clearCache (w : World) : World :=
  mkWorld empty_cache (w_lt_fetches w) (w_wc_fetches w).

End RefCache.

(* ------------------------------------------------------------------ *)
(** ** Remote operations issued by the client *)

(** A call on the remote store: a read of a table, an update, insert or
    delete of a table, or a stored procedure call. *)
Inductive RemoteOp :=
| OpSelect (table : string)
| OpUpdate (table : string)
| OpInsert (table : string)
| OpDelete (table : string)
| OpRpc (proc : string).

Definition is_write (op : RemoteOp) : bool :=
  match op with OpSelect _ => false | _ => true end.

(** Outcome of a command: success, an error shown to the user, or an early
    [return] before anything happens. *)
Inductive CmdResult :=
| Success
| Failed (msg : string)
| Skipped.

(** [s.includes(sub)] *)
Definition includes (s sub : string) : bool :=
  match String.index 0 sub s with Some _ => true | None => false end.

(** Decimal digits of a non-negative integer, most significant first. *)
Fixpoint digits_aux (fuel : nat) (n : Z) (acc : string) : string :=
  match fuel with
  | O => acc
  | S f =>
      let acc' := String (ascii_of_nat (48 + Z.to_nat (n mod 10))) acc in
      if Z.ltb n 10 then acc' else digits_aux f (n / 10) acc'
  end.

(** [`${n}`] for an integer [n]. *)
Definition js_number_to_string (n : Z) : string :=
  if Z.ltb n 0 then "-" ++ digits_aux (S (Z.to_nat (Z.log2 (- n)))) (- n) ""
  else digits_aux (S (Z.to_nat (Z.log2 n))) n "".

(** The first run of decimal digits of [s]: [s.match(/\d+/)?.[0]]. *)
Fixpoint first_digits_aux (l : list ascii) (started : bool) (acc : list ascii) : option (list ascii) :=
  match l with
  | [] => if started then Some (rev acc) else None
  | c :: l' =>
      let d := andb (Nat.leb 48 (nat_of_ascii c)) (Nat.leb (nat_of_ascii c) 57) in
      if d then first_digits_aux l' true (c :: acc)
      else if started then Some (rev acc) else first_digits_aux l' false acc
  end.

Definition first_digits (s : string) : option string :=
  option_map string_of_list_ascii (first_digits_aux (list_ascii_of_string s) false []).

(* ------------------------------------------------------------------ *)
(** ** Transaction Command: [submitTransaction] (src/app/stok/page.jsx, l.257-395) *)

Module Submit.

(** The validated form values. *)
Record SubmitValues := mkSubmitValues {
  sv_lobsterType : string; sv_weightClass : string; sv_quantity : Z;
  sv_transactionType : string; sv_destination : option string; sv_note : option string;
  sv_transactionDate : string }.

(** The answer of a [.single()] query: one row, no row ([PGRST116]), or
    another error. *)
Inductive SingleRow :=
| Row (quantity : option Z)
| NoRow
| QueryErr (msg : string).

(** What the remote store answers during one submission: the ids of the
    named type and weight class, the inventory row of the pair, and the
    error of [manage_inventory] ([None] when it succeeds). *)
Record SubmitResponses := mkSubmitResponses {
  sr_type : remote Z; sr_weightClass : remote Z; sr_inventory : SingleRow;
  sr_rpc : option string }.

Definition pair_label (v : SubmitValues) : string :=
  sv_lobsterType v ++ " (" ++ sv_weightClass v ++ ")".

(** l.297-299 *)
Definition not_enough_msg (v : SubmitValues) (available : string) : string :=
  "Not enough stock: only " ++ available ++ " " ++ pair_label v ++ " available".

(** l.317-354: the message thrown for an error of [manage_inventory]. *)
Definition classify_rpc_error (v : SubmitValues) (m : string) : string :=
  if includes m "Quantity must be positive" then "Quantity must be a positive number"
  else if includes m "No inventory exists" then "No stock available for " ++ pair_label v
  else if includes m "Insufficient inventory" then
    match first_digits m with
    | Some available => not_enough_msg v available
    | None => "Cannot read properties of null (reading '0')"
    end
  else if includes m "Validation failed" then "Not enough stock for " ++ pair_label v
  else if includes m "Update failed" then "No stock available for " ++ pair_label v
  else if includes m "Destination is required" then "Destination is required for this transaction type"
  else if includes m "function public.manage_inventory" then
    "Database function manage_inventory not found. Please contact support."
  else m.

(** [submitTransaction(values)]: the remote calls it issues, in order, and
    its outcome. [dateValid] is [!isNaN(Date.parse(transactionDate))]: for an
    invalid date [new Date(...).toISOString()] throws before the procedure
    call. Reads of reference data through the cache after success
    ([fetchStockByType]) are not listed. *)
Definition submitTransaction (v : SubmitValues) (dateValid : bool) (r : SubmitResponses)
  : list RemoteOp * CmdResult :=
  let t0 := [OpSelect "lobster_types"; OpSelect "weight_classes"] in
  match sr_type r, sr_weightClass r with
  | Ok _, Ok _ =>
      let pre :=
        if is_outgoing (sv_transactionType v) then
          let t1 := app t0 [OpSelect "inventory"] in
          let current :=
            match sr_inventory r with
            | Row q => inl (qty_or_zero q)
            | NoRow => inl 0
            | QueryErr m => inr m
            end in
          match current with
          | inr m => (t1, Some m)
          | inl currentStock =>
              if Z.ltb currentStock (sv_quantity v) then
                (t1, Some (not_enough_msg v (js_number_to_string currentStock)))
              else if Z.eqb currentStock 0 then
                (t1, Some ("No stock available for " ++ pair_label v))
              else (t1, None)
          end
        else (t0, None) in
      match pre with
      | (t1, Some m) => (t1, Failed m)
      | (t1, None) =>
          if negb dateValid then (t1, Failed "Invalid time value")
          else
            let t2 := app t1 [OpRpc "manage_inventory"] in
            match sr_rpc r with
            | Some m => (t2, Failed (classify_rpc_error v m))
            | None => (app t2 [OpSelect "inventory"; OpSelect "inventory"], Success)
            end
      end
  | _, _ => (t0, Failed "Invalid type or weight class")
  end.

End Submit.

(* ------------------------------------------------------------------ *)
(** ** Transaction edit: [handleEditSubmit] (src/app/transaksi/page.jsx, l.261-357) *)

Module Edit.

(** The transaction being edited. *)
Record EditTx := mkEditTx { et_id : string; et_transaction_type : string }.

(** The edit form. Select values are strings ([''] is falsy); [ef_quantity]
    is the numeric reading of the quantity field, [None] when the field is
    empty or not a number. *)
Record EditForm := mkEditForm {
  ef_transaction_type : string; ef_type_id : string; ef_weight_class_id : string;
  ef_quantity : option Z; ef_transaction_date : string;
  ef_destination : string; ef_notes : string }.

(** A row of the page's [transactions] state. *)
Record PageTx := mkPageTx {
  pt_id : string; pt_transaction_type : string; pt_type_id : string;
  pt_weight_class_id : string; pt_quantity : Z }.

(** The answers of the stock query of [validateStock] and of the update. *)
Record EditResponses := mkEditResponses {
  er_validate : remote (list (option Z)); er_update : option string }.

(** [validateStock] (l.261-295), [None] when it passes. *)
Definition validateStock (txs : list PageTx) (r : EditResponses)
  (transactionId typeId weightClassId : string) (newQuantity : Z) : option string :=
  match er_validate r with
  | Err m => Some m
  | Ok rows =>
      let totalOutgoing := fold_left (fun sum q => sum + Z.abs (qty_or_zero q)) rows 0 in
      let currentAdd :=
        fold_left (fun sum t => sum + pt_quantity t)
          (filter (fun t => negb (String.eqb (pt_id t) transactionId)
                            && String.eqb (pt_transaction_type t) "ADD"
                            && String.eqb (pt_type_id t) typeId
                            && String.eqb (pt_weight_class_id t) weightClassId) txs) 0 in
      if Z.ltb (newQuantity + currentAdd) totalOutgoing then
        Some ("Jumlah tidak cukup. Total keluar: " ++ js_number_to_string totalOutgoing
              ++ ", total masuk lainnya: " ++ js_number_to_string currentAdd ++ ".")
      else None
  end.

(** [handleEditSubmit] (l.298-357): the remote calls and the outcome. *)
Definition handleEditSubmit (editing : option EditTx) (f : EditForm) (txs : list PageTx)
  (r : EditResponses) : list RemoteOp * CmdResult :=
  match editing with
  | None => ([], Skipped)
  | Some et =>
      if String.eqb (ef_transaction_type f) "" then ([], Failed "Jenis transaksi diperlukan")
      else if String.eqb (ef_type_id f) "" then ([], Failed "Jenis lobster diperlukan")
      else if String.eqb (ef_weight_class_id f) "" then ([], Failed "Kelas berat diperlukan")
      else
        match ef_quantity f with
        | None => ([], Failed "Jumlah harus lebih dari 0")
        | Some q =>
            if Z.leb q 0 then ([], Failed "Jumlah harus lebih dari 0")
            else if String.eqb (ef_transaction_date f) "" then ([], Failed "Tanggal transaksi diperlukan")
            else
              let v :=
                if String.eqb (et_transaction_type et) "ADD" then
                  ([OpSelect "transactions"],
                   validateStock txs r (et_id et) (ef_type_id f) (ef_weight_class_id f) q)
                else ([], None) in
              match v with
              | (t1, Some m) => (t1, Failed m)
              | (t1, None) =>
                  let t2 := app t1 [OpUpdate "transactions"] in
                  match er_update r with
                  | Some m => (t2, Failed m)
                  | None => (t2, Success)
                  end
              end
        end
  end.

End Edit.

(* ------------------------------------------------------------------ *)
(** ** The transaction form schema (src/app/stok/page.jsx, l.57-83) *)


Module FormSchema.

(** The values handed to the resolver; [quantity] is a JS number, [Q] here. *)
Record FormValues := mkFormValues {
  fv_lobsterType : string; fv_weightClass : string; fv_quantity : Q;
  fv_transactionType : string; fv_destination : option string; fv_note : option string;
  fv_transactionDate : string }.

(** White space removed by [String.prototype.trim] among the code units
    0-255: TAB, LF, VT, FF, CR, SPACE and NO-BREAK SPACE. *)
Definition is_js_space (c : ascii) : bool :=
  existsb (Nat.eqb (nat_of_ascii c)) [9; 10; 11; 12; 13; 32; 160]%nat.

Fixpoint drop_spaces (l : list ascii) : list ascii :=
  match l with
  | c :: l' => if is_js_space c then drop_spaces l' else l
  | [] => []
  end.

(** [s.trim()] *)
Definition js_trim (s : string) : string :=
  string_of_list_ascii (rev (drop_spaces (rev (drop_spaces (list_ascii_of_string s))))).

Section Schema.

(** [!isNaN(Date.parse(val))]: the host's date parser. *)
Variable date_parses : string -> bool.

(** [z.number().min(1).int()] *)
Definition quantity_ok (q : Q) : bool :=
  Qle_bool 1 q && Z.eqb (Z.modulo (Qnum q) (Zpos (Qden q))) 0.

(** The fields of the [z.object({...})]. *)
Definition object_ok (v : FormValues) : bool :=
  Nat.leb 1 (String.length (fv_lobsterType v))
  && Nat.leb 1 (String.length (fv_weightClass v))
  && quantity_ok (fv_quantity v)
  && existsb (String.eqb (fv_transactionType v)) ["ADD"; "DISTRIBUTE"; "DEATH"; "DAMAGED"]
  && Nat.leb 1 (String.length (fv_transactionDate v))
  && date_parses (fv_transactionDate v).

(** The [.refine(...)] on the destination: [data.destination &&
    data.destination.trim() !== ''] for the outgoing types ([undefined] and
    [''] are falsy). *)
Definition destination_ok (v : FormValues) : bool :=
  if is_outgoing (fv_transactionType v) then
    match fv_destination v with
    | Some d => negb (String.eqb d "") && negb (String.eqb (js_trim d) "")
    | None => false
    end
  else true.

(** [formSchema.safeParse(v).success] *)
Definition formSchema_valid (v : FormValues) : bool := object_ok v && destination_ok v.

End Schema.

End FormSchema.

(* ------------------------------------------------------------------ *)
(** ** Trailing-edge debounce ([lodash/debounce]) of the change feed
       (src/app/page.jsx, l.258-299) *)

Module Debounce.

Section Debounce.

(** The payload a change-feed event passes to the handler. *)
Variable A : Type.

(** [debounce(fetchDashboardData, 1000, { leading: false, trailing: true })] *)
Definition wait : Z := 1000.

(** The closure state of the debounced function ([maxWait] is unset). *)
Record DState := mkDState {
  timerId : option Z;          (* expiry time of the pending timer *)
  lastCallTime : option Z;
  lastArgs : option A;
  lastInvokeTime : Z;
  invocations : list (Z * A) }. (* calls of [fetchDashboardData], with their time *)

Definition init : DState := mkDState None None None 0 [].

Definition shouldInvoke (st : DState) (time : Z) : bool :=
  match lastCallTime st with
  | None => true
  | Some lc => Z.leb wait (time - lc) || Z.ltb (time - lc) 0
  end.

(** [invokeFunc(time)] *)
Definition invokeFunc (st : DState) (time : Z) (args : A) : DState :=
  mkDState (timerId st) (lastCallTime st) None time (invocations st ++ [(time, args)]).

(** [trailingEdge(time)]: [trailing] is set, so pending arguments are used. *)
Definition trailingEdge (st : DState) (time : Z) : DState :=
  let st' := mkDState None (lastCallTime st) (lastArgs st) (lastInvokeTime st) (invocations st) in
  match lastArgs st with
  | Some args => invokeFunc st' time args
  | None => mkDState None (lastCallTime st) None (lastInvokeTime st) (invocations st)
  end.

(** [remainingWait(time)] without [maxWait] *)
Definition remainingWait (st : DState) (time : Z) : Z :=
  match lastCallTime st with Some lc => wait - (time - lc) | None => wait end.

(** [timerExpired()] run at [time] *)
Definition timerExpired (st : DState) (time : Z) : DState :=
  if shouldInvoke st time then trailingEdge st time
  else mkDState (Some (time + remainingWait st time)) (lastCallTime st) (lastArgs st)
         (lastInvokeTime st) (invocations st).

(** [debounced(args)] called at [time]; [leadingEdge] only arms the timer as
    [leading] is false. *)
Definition call (st : DState) (time : Z) (args : A) : DState :=
  let isInvoking := shouldInvoke st time in
  let st' := mkDState (timerId st) (Some time) (Some args) (lastInvokeTime st) (invocations st) in
  match timerId st with
  | None =>
      if isInvoking
      then mkDState (Some (time + wait)) (Some time) (Some args) time (invocations st)
      else mkDState (Some (time + wait)) (Some time) (Some args) (lastInvokeTime st) (invocations st)
  | Some _ => st'
  end.

(** Fire the pending timer while its expiry satisfies [due]; a re-armed timer
    expires strictly later, so [fuel] steps of one millisecond suffice. *)
Fixpoint fire (fuel : nat) (due : Z -> bool) (st : DState) : DState :=
  match fuel with
  | O => st
  | S f =>
      match timerId st with
      | Some e => if due e then fire f due (timerExpired st e) else st
      | None => st
      end
  end.

Definition fuel_to (st : DState) (bound : Z) : nat :=
  match timerId st with Some e => S (Z.to_nat (bound - e)) | None => O end.

(** Timers due strictly before an event at [t] fire before it. *)
Definition fire_before (st : DState) (t : Z) : DState :=
  fire (fuel_to st t) (fun e => Z.ltb e t) st.

(** All timers due up to [h] (inclusive). *)
Definition settle (st : DState) (h : Z) : DState :=
  fire (fuel_to st h) (fun e => Z.leb e h) st.

(** Change-feed events [(time, payload)] in time order, each handed to the
    debounced function. *)
Fixpoint feed (st : DState) (evs : list (Z * A)) : DState :=
  match evs with
  | [] => st
  | (t, a) :: evs' => feed (call (fire_before st t) t a) evs'
  end.

(** Consecutive events at most [gap] ms apart, in time order. *)
Fixpoint burst (gap : Z) (evs : list (Z * A)) : Prop :=
  match evs with
  | (t1, _) :: (((t2, _) :: _) as evs') => t1 <= t2 <= t1 + gap /\ burst gap evs'
  | _ => True
  end.

(** During a burst: a timer is pending no later than [wait] after the last
    call [lc], the last payload [a] is kept, and nothing has been invoked
    beyond [inv0]. *)
Definition pending (st : DState) (lc : Z) (a : A) (inv0 : list (Z * A)) : Prop :=
  (exists e, timerId st = Some e /\ lc <= e <= lc + wait)
  /\ lastCallTime st = Some lc /\ lastArgs st = Some a /\ invocations st = inv0.

End Debounce.

Arguments init {A}.
Arguments pending {A} st lc a inv0.
Arguments shouldInvoke {A} st time.
Arguments invokeFunc {A} st time args.
Arguments trailingEdge {A} st time.
Arguments remainingWait {A} st time.
Arguments timerExpired {A} st time.
Arguments call {A} st time args.
Arguments fire {A} fuel due st.
Arguments fuel_to {A} st bound.
Arguments fire_before {A} st t.
Arguments settle {A} st h.
Arguments feed {A} st evs.
Arguments burst {A} gap evs.

End Debounce.

(** The writes in a trace of remote calls. *)
Definition writes (ops : list RemoteOp) : list RemoteOp := filter is_write ops.

Definition is_err {A} (x : remote A) : bool := match x with Err _ => true | Ok _ => false end.

(** The reference-data reads or one of the four ledger queries of a cycle
    fails. *)
Definition main_fetch_failed (r : DashResponses) : bool :=
  is_err (r_lobsterTypes r) || is_err (r_weightClasses r) || is_err (r_inventory r)
  || is_err (r_transactions r) || is_err (r_pie r) || is_err (r_monthly r).

(** Sample inputs of a refresh cycle: one type "Rock" holding 4 units,
    with the weight-class sub-fetch timing out ([ok_but_breakdown_timeout])
    or the inventory query failing ([inventory_fails]). *)
Definition empty_dash_state : DashState := mkDashState 0 0 0 [] [] [] [] false false None None.

Definition ok_but_breakdown_timeout : DashResponses :=
  mkDashResponses (Ok [mkLobsterType 1 "Rock"]) (Ok [mkWeightClass 2 "100-200"])
    (Ok [mkInventoryRow 1 (Some 4)]) (Ok []) (Ok []) (Ok [])
    (fun _ => Err "Request timed out") (mkLocalDate 2024 0 15) "10.00".

Definition inventory_fails : DashResponses :=
  mkDashResponses (Ok [mkLobsterType 1 "Rock"]) (Ok [mkWeightClass 2 "100-200"])
    (Err "network error") (Ok []) (Ok []) (Ok [])
    (fun _ => Err "Request timed out") (mkLocalDate 2024 0 15) "10.00".

(* ------------------------------------------------------------------ *)
(** ** Stock page: weight-class breakdown, available stock and the default
       transaction date (src/app/stok/page.jsx) *)

Module StockWeights.

(** A row of [select('type_id, weight_class_id, quantity,
    weight_classes!inner(weight_range)')]. *)
Record StokInvRow := mkStokInvRow {
  si_type_id : Z; si_weight_range : option string; si_quantity : option Z }.

(** [types.map((t) => lobsterTypes.find((lt) => lt.name === t.lobster_type)?.id)
    .filter(Boolean)] (l.162-168): [undefined] and [0] are dropped. [types]
    is given by the [lobster_type] fields of its entries, the only field
    the function reads. *)
Definition requested_ids (lobsterTypes : list LobsterType) (types : list string) : list Z :=
  filter (fun id => negb (Z.eqb id 0))
    (flat_map (fun n => match find_id_by_name lobsterTypes n with
                        | Some id => [id]
                        | None => []
                        end) types).

(** [inventoryData.filter((row) => row.type_id === typeId).map(...)]
    (l.177-184); with no matching type [typeId] is [undefined], which no
    numeric [type_id] equals. *)
Definition breakdown (lobsterTypes : list LobsterType) (inventoryData : list StokInvRow)
  (name : string) : list WeightEntry :=
  let typeId := find_id_by_name lobsterTypes name in
  map (fun row =>
         mkWeightEntry
           (match si_weight_range row with
            | Some w => if String.eqb w "" then "Unknown" else w
            | None => "Unknown"
            end)
           (qty_or_zero (si_quantity row)))
      (filter (fun row => match typeId with
                          | Some id => Z.eqb (si_type_id row) id
                          | None => false
                          end) inventoryData).

(** [fetchWeightClasses(types)] (l.149-197): the object handed to
    [setWeightClasses], which replaces the whole state. [resp ids] is the
    outcome of the [Promise.race] of the [.in('type_id', ids)] query and the
    3 s timeout; on any error the [catch] maps every type to [[]]. *)
Definition fetchWeightClasses (lobsterTypes : list LobsterType)
  (resp : list Z -> remote (list StokInvRow)) (types : list string)
  : list (string * list WeightEntry) :=
  match resp (requested_ids lobsterTypes types) with
  | Ok inventoryData =>
      fold_left (fun acc n => wc_set n (breakdown lobsterTypes inventoryData n) acc) types []
  | Err _ => fold_left (fun acc n => wc_set n [] acc) types []
  end.

(** The [weightClasses] state after the change-feed handler of l.424-444 (and
    l.450-468) for a row of type [affectedTypeId]:
    [if (affectedType) await fetchWeightClasses([{ lobster_type: affectedType }])]. *)
Definition onChange (lobsterTypes : list LobsterType) (resp : list Z -> remote (list StokInvRow))
  (affectedTypeId : Z) (prev : list (string * list WeightEntry))
  : list (string * list WeightEntry) :=
  match find_type_by_id lobsterTypes affectedTypeId with
  | Some t => if String.eqb (lt_name t) "" then prev
              else fetchWeightClasses lobsterTypes resp [lt_name t]
  | None => prev
  end.

End StockWeights.

(** [fetchAvailableStock(lobsterType, weightClass)] (l.214-247): the remote
    reads and the new value of [availableStock] ([None] is [null]). The
    answers are those of [submitTransaction]'s first three reads. *)
Definition fetchAvailableStock (lobsterType weightClass : string) (r : Submit.SubmitResponses)
  : list RemoteOp * option Z :=
  if String.eqb lobsterType "" || String.eqb weightClass "" then ([], None)
  else
    let t0 := [OpSelect "lobster_types"; OpSelect "weight_classes"] in
    match Submit.sr_type r, Submit.sr_weightClass r with
    | Ok _, Ok _ =>
        (app t0 [OpSelect "inventory"],
         match Submit.sr_inventory r with
         | Submit.Row q => Some (qty_or_zero q)
         | Submit.NoRow => Some 0
         | Submit.QueryErr _ => Some 0
         end)
    | _, _ => (t0, Some 0)
    end.

(** The local fields of [new Date()] read by [getCurrentDateTime]. *)
Record LocalDateTime := mkLocalDateTime {
  ldt_year : Z; ldt_month : Z; ldt_day : Z; ldt_hours : Z; ldt_minutes : Z }.

(** [String(n).padStart(2, '0')] *)
Definition padStart2 (s : string) : string :=
  string_of_list_ascii (repeat "0"%char (2 - String.length s)) ++ s.

(** [getCurrentDateTime()] (l.46-54): the [datetime-local] default value. *)
Definition getCurrentDateTime (now : LocalDateTime) : string :=
  js_number_to_string (ldt_year now) ++ "-"
  ++ padStart2 (js_number_to_string (ldt_month now + 1)) ++ "-"
  ++ padStart2 (js_number_to_string (ldt_day now)) ++ "T"
  ++ padStart2 (js_number_to_string (ldt_hours now)) ++ ":"
  ++ padStart2 (js_number_to_string (ldt_minutes now)).

(** The value of a string of decimal digits, [None] if it holds another
    character or is empty. *)
Fixpoint digits_value (l : list ascii) (acc : Z) : option Z :=
  match l with
  | [] => Some acc
  | c :: l' =>
      let n := Z.of_nat (nat_of_ascii c) in
      if (48 <=? n) && (n <=? 57) then digits_value l' (acc * 10 + (n - 48)) else None
  end.

Definition parse_decimal (s : string) : option Z :=
  match list_ascii_of_string s with
  | [] => None
  | l => digits_value l 0
  end.

(** Decidable checks of the text [getCurrentDateTime] gives a field: a
    two-character, resp. four-character, string of decimal digits whose value
    is the field. *)
Definition two_digit_field_ok (k : Z) : bool :=
  match padStart2 (js_number_to_string k) with
  | String _ (String _ EmptyString) =>
      match parse_decimal (padStart2 (js_number_to_string k)) with
      | Some k' => Z.eqb k k'
      | None => false
      end
  | _ => false
  end.

Definition four_digit_field_ok (k : Z) : bool :=
  match js_number_to_string k with
  | String _ (String _ (String _ (String _ EmptyString))) =>
      match parse_decimal (js_number_to_string k) with
      | Some k' => Z.eqb k k'
      | None => false
      end
  | _ => false
  end.

(* ------------------------------------------------------------------ *)
(** ** Transaction history page (src/app/transaksi/page.jsx) *)

Module Transaksi.

(** The [filters] state (l.51-57). *)
Record Filters := mkFilters {
  f_startDate : string; f_endDate : string; f_lobsterType : string;
  f_transactionType : string; f_page : Z }.

Definition initial_filters : Filters := mkFilters "" "" "all" "all" 1.

(** A value compared by a filter. *)
Inductive QVal := VStr (s : string) | VNum (n : Z).

(** The filters a Postgrest builder accumulates; [query.gte(...)] and the
    like add to the builder they are called on. *)
Inductive QFilter :=
| FGte (col : string) (v : string)
| FLte (col : string) (v : string)
| FEq (col : string) (v : QVal)
| FOrderDesc (col : string)
| FRange (from to : Z).

Record Query := mkQuery {
  q_table : string; q_select : string; q_head_count : bool; q_filters : list QFilter }.

Definition add_filter (q : Query) (fl : QFilter) : Query :=
  mkQuery (q_table q) (q_select q) (q_head_count q) (app (q_filters q) [fl]).

Definition add_filters (q : Query) (fls : list QFilter) : Query := fold_left add_filter fls q.

(** The remote store: the id of the lobster type of a name (the [.single()]
    query of l.164-168; [Err] when no single row), the rows or error of a
    query, and the [count] of a [head] query ([None] for [null]). *)
Record TServer := mkTServer {
  srv_type_id : string -> remote Z;
  srv_rows : Query -> remote (list Transaction);
  srv_count : Query -> option Z }.

(** The state [fetchTransactions] writes. *)
Record TState := mkTState {
  transactions : list Transaction; totalItems : Z; incomingStock : Z; outgoingStock : Z;
  tableLoading : bool; error : option string }.

Definition page_select : string :=
  "id, transaction_type, quantity, transaction_date, notes, destination, type_id, weight_class_id, lobster_types (name), weight_classes (weight_range)".

(** [from] and [to] of [.range(from, to)] (l.131-132). *)
Definition page_range (page itemsPerPage : Z) : Z * Z :=
  let from := (page - 1) * itemsPerPage in (from, from + itemsPerPage - 1).

(** What one call of [fetchTransactions] comes to. *)
Inductive Load :=
| Loaded (data : list Transaction) (count incoming outgoing : Z)
| NoSuchType
| LoadFailed (msg : string).

(** l.208-213 *)
Definition incoming (stockData : list Transaction) : Z :=
  fold_left (fun sum t => if String.eqb (tx_type t) "ADD" then sum + qty_or_zero (tx_quantity t)
                          else sum) stockData 0.

Section Fetch.

(** [new Date(d).toISOString().split('T')[0]] for the value [d] of a date
    input; [None] when [toISOString] throws on an invalid date. *)
Variable iso_day : string -> option string.

(** The date filters of l.154-167, added to all three queries; [None] when
    one of the dates throws. *)
Definition date_filters (f : Filters) : option (list QFilter) :=
  let s := if String.eqb (f_startDate f) "" then Some []
           else option_map (fun d => [FGte "transaction_date" (d ++ "T00:00:00Z")])
                           (iso_day (f_startDate f)) in
  let e := if String.eqb (f_endDate f) "" then Some []
           else option_map (fun d => [FLte "transaction_date" (d ++ "T23:59:59Z")])
                           (iso_day (f_endDate f)) in
  match s, e with
  | Some a, Some b => Some (app a b)
  | _, _ => None
  end.

(** The body of the [try] of [fetchTransactions] (l.126-229). *)
Definition load (f : Filters) (itemsPerPage : Z) (srv : TServer) : Load :=
  let (from, to) := page_range (f_page f) itemsPerPage in
  let countQuery := mkQuery "transactions" "*" true [] in
  let query := mkQuery "transactions" page_select false
                 [FOrderDesc "transaction_date"; FRange from to] in
  let stockQuery := mkQuery "transactions" "transaction_type, quantity" false [] in
  match date_filters f with
  | None => LoadFailed "Invalid time value"
  | Some dfs =>
      let typeStep :=
        if String.eqb (f_lobsterType f) "all" then Some []
        else match srv_type_id srv (f_lobsterType f) with
             | Ok id => Some [FEq "type_id" (VNum id)]
             | Err _ => None
             end in
      match typeStep with
      | None => NoSuchType
      | Some tfs =>
          let kfs := if String.eqb (f_transactionType f) "all" then []
                     else [FEq "transaction_type" (VStr (f_transactionType f))] in
          let query := add_filters query (app (app dfs tfs) kfs) in
          let countQuery := add_filters countQuery (app (app dfs tfs) kfs) in
          let stockQuery := add_filters stockQuery (app dfs tfs) in
          match srv_rows srv query, srv_rows srv stockQuery with
          | Err m, _ => LoadFailed m
          | Ok _, Err m => LoadFailed m
          | Ok data, Ok stockData =>
              Loaded data (match srv_count srv countQuery with Some c => c | None => 0 end)
                (incoming stockData) (TransaksiTx.outgoing stockData)
          end
      end
  end.

(** [fetchTransactions] with its [catch] and [finally]. *)
Definition fetchTransactions (f : Filters) (itemsPerPage : Z) (srv : TServer) (st : TState)
  : TState :=
  match load f itemsPerPage srv with
  | Loaded data count inc out => mkTState data count inc out false (error st)
  | NoSuchType => mkTState [] 0 0 0 false (error st)
  | LoadFailed m => mkTState (transactions st) (totalItems st) (incomingStock st)
                      (outgoingStock st) false (Some m)
  end.

End Fetch.

(** [Math.ceil(totalItems / itemsPerPage)] (l.627) for a positive
    [itemsPerPage] (the selector offers 10, 25 and 50). *)
Definition totalPages (totalItems itemsPerPage : Z) : Z := - (- totalItems / itemsPerPage).

Definition with_page (p : Z) (f : Filters) : Filters :=
  mkFilters (f_startDate f) (f_endDate f) (f_lobsterType f) (f_transactionType f) p.

(** [handlePreviousPage] (l.629-633) *)
Definition handlePreviousPage (f : Filters) : Filters :=
  if Z.ltb 1 (f_page f) then with_page (f_page f - 1) f else f.

(** [handleNextPage] (l.635-639) *)
Definition handleNextPage (totalPages : Z) (f : Filters) : Filters :=
  if Z.ltb (f_page f) totalPages then with_page (f_page f + 1) f else f.

(** The controls that change [filters]: the two date inputs, the two
    selects and the rows-per-page select reset the page to 1 (l.720-760,
    l.930-933), [clearFilters] (l.573-587) restores the initial filters. *)
Inductive FilterAction :=
| SetStartDate (v : string)
| SetEndDate (v : string)
| SetLobsterType (v : string)
| SetTransactionType (v : string)
| SetItemsPerPage
| ClearFilters
| PreviousPage
| NextPage (totalPages : Z).

Definition step (f : Filters) (a : FilterAction) : Filters :=
  match a with
  | SetStartDate v => mkFilters v (f_endDate f) (f_lobsterType f) (f_transactionType f) 1
  | SetEndDate v => mkFilters (f_startDate f) v (f_lobsterType f) (f_transactionType f) 1
  | SetLobsterType v => mkFilters (f_startDate f) (f_endDate f) v (f_transactionType f) 1
  | SetTransactionType v => mkFilters (f_startDate f) (f_endDate f) (f_lobsterType f) v 1
  | SetItemsPerPage => with_page 1 f
  | ClearFilters => initial_filters
  | PreviousPage => handlePreviousPage f
  | NextPage tp => handleNextPage tp f
  end.

(** [\s] among the code units 0-255 is the white space of [trim]. *)
Fixpoint replace_space_runs (in_run : bool) (l : list ascii) : list ascii :=
  match l with
  | [] => []
  | c :: l' =>
      if FormSchema.is_js_space c then
        if in_run then replace_space_runs true l' else "_"%char :: replace_space_runs true l'
      else c :: replace_space_runs false l'
  end.

(** [/[a-zA-Z0-9_-]/] *)
Definition is_name_char (c : ascii) : bool :=
  let n := nat_of_ascii c in
  ((65 <=? n) && (n <=? 90))%nat || ((97 <=? n) && (n <=? 122))%nat
  || ((48 <=? n) && (n <=? 57))%nat || (n =? 95)%nat || (n =? 45)%nat.

(** [lobsterType.replace(/\s+/g, '_').replace(/[^a-zA-Z0-9_-]/g, '')]
    (l.531-535), the lobster-type part of the PDF file name. *)
Definition sanitize (s : string) : string :=
  string_of_list_ascii (filter is_name_char (replace_space_runs false (list_ascii_of_string s))).

End Transaksi.

(* ================================================================== *)
(** * Properties *)

(** Sum of [total_quantity] over a [stockByTypeArray]. *)
Definition sum_stock (l : list StockByType) : Z :=
  fold_right Z.add 0 (map sbt_total_quantity l).

(** Sum of the quantities of the rows that [label] puts under key [k]
    ([None]: the row is put under no key). *)
Definition labelled_sum (label : InventoryRow -> option string) (k : string)
  (rows : list InventoryRow) : Z :=
  fold_right (fun r s => (match label r with
                          | Some n => if String.eqb k n then qty_or_zero (inv_quantity r) else 0
                          | None => 0 end) + s) 0 rows.

(** The quantities of a list of transaction rows, summed in the spec's way. *)
Definition sum_list (l : list Z) : Z := fold_right Z.add 0 l.

(** ** Plain objects *)

Lemma obj_get_set (k k' : string) (v : Z) (o : js_obj) :
  obj_get k (obj_set k' v o) = if String.eqb k k' then Some v else obj_get k o.
Proof.
  induction o as [|[k0 v0] o IH]; simpl.
  - reflexivity.
  - destruct (String.eqb_spec k' k0) as [->|Hne]; simpl.
    + destruct (String.eqb k k0); reflexivity.
    + rewrite IH. destruct (String.eqb_spec k k') as [->|Hkk'].
      * apply String.eqb_neq in Hne. now rewrite Hne.
      * reflexivity.
Qed.

Lemma obj_val_add (k k' : string) (v : Z) (o : js_obj) :
  obj_val k (obj_add k' v o) = obj_val k o + (if String.eqb k k' then v else 0).
Proof.
  unfold obj_val, obj_add. rewrite obj_get_set.
  destruct (String.eqb_spec k k') as [->|_]; simpl; lia.
Qed.

Lemma sum_values_set (k : string) (v : Z) (o : js_obj) :
  sum_values (obj_set k v o) = sum_values o - qty_or_zero (obj_get k o) + v.
Proof.
  induction o as [|[k0 v0] o IH]; simpl.
  - lia.
  - destruct (String.eqb_spec k k0) as [->|Hne]; simpl.
    + lia.
    + unfold sum_values in IH |- *. simpl. rewrite IH. lia.
Qed.

Lemma sum_values_add (k : string) (v : Z) (o : js_obj) :
  sum_values (obj_add k v o) = sum_values o + v.
Proof. unfold obj_add. rewrite sum_values_set. simpl. lia. Qed.

Lemma keys_set (k k' : string) (v : Z) (o : js_obj) :
  In k (map fst (obj_set k' v o)) <-> k = k' \/ In k (map fst o).
Proof.
  induction o as [|[k0 v0] o IH]; simpl.
  - intuition congruence.
  - destruct (String.eqb_spec k' k0) as [->|Hne]; simpl.
    + intuition congruence.
    + rewrite IH. intuition congruence.
Qed.

Lemma keys_nodup_set (k : string) (v : Z) (o : js_obj) :
  NoDup (map fst o) -> NoDup (map fst (obj_set k v o)).
Proof.
  induction o as [|[k0 v0] o IH]; simpl; intros Hnd.
  - constructor; [intros []|constructor].
  - inversion Hnd as [|? ? Hnin Hnd']; subst.
    destruct (String.eqb_spec k k0) as [->|Hne]; simpl.
    + constructor; assumption.
    + constructor; [|now apply IH].
      rewrite keys_set. intros [->|Hin]; [now apply Hne|contradiction].
Qed.

Lemma sum_stock_entries (o : js_obj) : sum_stock (entries_to_stock o) = sum_values o.
Proof.
  unfold sum_stock, sum_values in *.
  induction o as [|[k v] o IH]; simpl in *; [reflexivity|]. lia.
Qed.

Lemma labels_entries (o : js_obj) : map sbt_lobster_type (entries_to_stock o) = map fst o.
Proof. induction o as [|[k v] o IH]; simpl; [reflexivity|now f_equal]. Qed.

(** ** Stock aggregation *)

Lemma dashboard_total_acc (rows : list InventoryRow) (s : Z) :
  fold_left (fun sum row => sum + qty_or_zero (inv_quantity row)) rows s
  = s + Dashboard.total rows.
Proof.
  unfold Dashboard.total. revert s.
  induction rows as [|r rows IH]; intros s; cbn [fold_left]; [lia|].
  rewrite (IH (s + _)), (IH (0 + _)). lia.
Qed.

Lemma dashboard_grouped_acc (types : list LobsterType) (rows : list InventoryRow) (acc : js_obj) :
  sum_values (fold_left (fun acc row =>
    obj_add (type_label types (inv_type_id row)) (qty_or_zero (inv_quantity row)) acc) rows acc)
  = sum_values acc + Dashboard.total rows
  /\ (NoDup (map fst acc) ->
      NoDup (map fst (fold_left (fun acc row =>
        obj_add (type_label types (inv_type_id row)) (qty_or_zero (inv_quantity row)) acc) rows acc))).
Proof.
  revert acc. induction rows as [|r rows IH]; intros acc; simpl.
  - unfold Dashboard.total. simpl. split; [lia|tauto].
  - destruct (IH (obj_add (type_label types (inv_type_id r)) (qty_or_zero (inv_quantity r)) acc))
      as [Hs Hn].
    split.
    + rewrite Hs, sum_values_add.
      unfold Dashboard.total at 2. simpl. rewrite dashboard_total_acc. lia.
    + intros Hnd. apply Hn. now apply keys_nodup_set.
Qed.

Lemma grouped_val_acc {B : Type} (step : js_obj -> B -> js_obj) (label : B -> option string)
  (q : B -> Z) (rows : list B) (acc : js_obj) (k : string) :
  (forall acc r, step acc r = match label r with Some n => obj_add n (q r) acc | None => acc end) ->
  obj_val k (fold_left step rows acc)
  = obj_val k acc
    + fold_right (fun r s => (match label r with
                              | Some n => if String.eqb k n then q r else 0
                              | None => 0 end) + s) 0 rows.
Proof.
  intros Hstep. revert acc. induction rows as [|r rows IH]; intros acc; simpl; [lia|].
  rewrite IH, Hstep. destruct (label r) as [n|].
  - rewrite obj_val_add. lia.
  - lia.
Qed.

Lemma stockByType_labels_nodup (types : list LobsterType) (rows : list InventoryRow) :
  NoDup (map sbt_lobster_type (Dashboard.stockByTypeArray types rows)).
Proof.
  unfold Dashboard.stockByTypeArray, Dashboard.grouped. rewrite labels_entries.
  apply (proj2 (dashboard_grouped_acc types rows [])). constructor.
Qed.

(** C1: the per-type totals of the dashboard's stock-by-type aggregation add
    up to the total stock over the same rows, and no type label occurs twice,
    so the grouping is a partition of the rows. *)
Theorem stock_by_type_sums_to_total (types : list LobsterType) (rows : list InventoryRow) :
  sum_stock (Dashboard.stockByTypeArray types rows) = Dashboard.total rows
  /\ NoDup (map sbt_lobster_type (Dashboard.stockByTypeArray types rows)).
Proof.
  split; [|apply stockByType_labels_nodup].
  unfold Dashboard.stockByTypeArray, Dashboard.grouped.
  rewrite sum_stock_entries.
  rewrite (proj1 (dashboard_grouped_acc types rows [])). reflexivity.
Qed.

(** C7 (as amended): in the dashboard every row is counted under its label,
    an unresolvable [type_id] getting the label ["Unknown"]; the stock page's
    [fetchStockByType] counts a row only under a resolved, non-empty type
    name, so an unresolvable row is counted under no key. *)
Theorem unresolved_rows_grouping (types : list LobsterType) (rows : list InventoryRow) :
  (forall k, obj_val k (Dashboard.grouped types rows)
             = labelled_sum (fun r => Some (type_label types (inv_type_id r))) k rows)
  /\ (forall k, obj_val k (StockPage.grouped types rows)
                = labelled_sum (fun r => StockPage.resolved_name types (inv_type_id r)) k rows)
  /\ (forall id, find_type_by_id types id = None ->
                 type_label types id = "Unknown" /\ StockPage.resolved_name types id = None).
Proof.
  split; [|split].
  - intros k. unfold Dashboard.grouped.
    rewrite (grouped_val_acc _ (fun r => Some (type_label types (inv_type_id r)))
                               (fun r => qty_or_zero (inv_quantity r))); reflexivity.
  - intros k. unfold StockPage.grouped.
    rewrite (grouped_val_acc _ (fun r => StockPage.resolved_name types (inv_type_id r))
                               (fun r => qty_or_zero (inv_quantity r))); reflexivity.
  - intros id Hid. unfold type_label, StockPage.resolved_name. now rewrite Hid.
Qed.

Lemma unresolved_rows_grouping_witness :
  find_type_by_id [] 7 = None
  /\ type_label [] 7 = "Unknown" /\ StockPage.resolved_name [] 7 = None.
Proof.
  split; [reflexivity|].
  apply (proj2 (proj2 (unresolved_rows_grouping [] [mkInventoryRow 7 (Some 4)])) 7).
  reflexivity.
Defined.

(** C7 counterexample: a row whose [type_id] resolves to no cached type is
    dropped by the stock page's aggregation, while the dashboard labels it
    ["Unknown"]. *)
Lemma stock_page_drops_unresolved_row :
  find_type_by_id [] 7 = None
  /\ StockPage.stockByTypeArray [] [mkInventoryRow 7 (Some 4)] = []
  /\ Dashboard.stockByTypeArray [] [mkInventoryRow 7 (Some 4)] = [mkStockByType "Unknown" 4].
Proof. split; [|split]; reflexivity. Qed.

(** ** Outgoing totals *)

Lemma sum_quantity_acc (rows : list Transaction) (s : Z) :
  fold_left (fun sum t => sum + qty_or_zero (tx_quantity t)) rows s
  = s + sum_list (map (fun t => qty_or_zero (tx_quantity t)) rows).
Proof.
  revert s. induction rows as [|t rows IH]; intros s; cbn [fold_left map sum_list fold_right];
    [unfold sum_list; simpl; lia|].
  rewrite IH. unfold sum_list. simpl. lia.
Qed.

(** The stock page of transactions sums the absolute values row by row: its
    outgoing total is the spec's. *)
Lemma transaksi_outgoing_is_spec (rows : list Transaction) :
  TransaksiTx.outgoing rows = outgoing_spec rows.
Proof.
  unfold TransaksiTx.outgoing, outgoing_spec.
  assert (H : forall s, fold_left (fun sum t =>
            if is_outgoing (tx_type t) then sum + Z.abs (qty_or_zero (tx_quantity t)) else sum)
            rows s
          = s + fold_right Z.add 0 (map (fun t => Z.abs (qty_or_zero (tx_quantity t)))
                                    (filter (fun t => is_outgoing (tx_type t)) rows))).
  { induction rows as [|t rows IH]; intros s; simpl; [lia|].
    destruct (is_outgoing (tx_type t)); simpl; rewrite IH; lia. }
  rewrite H. lia.
Qed.

Lemma abs_sum_same_sign (l : list Z) :
  (Forall (fun x => 0 <= x) l \/ Forall (fun x => x <= 0) l) ->
  Z.abs (sum_list l) = sum_list (map Z.abs l).
Proof.
  unfold sum_list. intros [H|H]; induction H as [|x l Hx Hl IH]; simpl; try reflexivity.
  - assert (0 <= fold_right Z.add 0 l).
    { clear IH. induction Hl; simpl; lia. }
    rewrite <- IH. lia.
  - assert (fold_right Z.add 0 l <= 0).
    { clear IH. induction Hl; simpl; lia. }
    rewrite <- IH. lia.
Qed.

(** The dashboard's [Math.abs] of the sum agrees with the spec whenever the
    outgoing rows all carry quantities of one sign. *)
Lemma dashboard_outgoing_same_sign (rows : list Transaction) :
  let outs := map (fun t => qty_or_zero (tx_quantity t))
                  (filter (fun t => is_outgoing (tx_type t)) rows) in
  (Forall (fun x => 0 <= x) outs \/ Forall (fun x => x <= 0) outs) ->
  DashboardTx.outgoing rows = outgoing_spec rows.
Proof.
  intros outs Hs. unfold DashboardTx.outgoing, sum_quantity, outgoing_spec.
  rewrite sum_quantity_acc, Z.add_0_l, abs_sum_same_sign by exact Hs.
  unfold sum_list. now rewrite map_map.
Qed.

(** C2 (code_bug): with a DISTRIBUTE row of quantity -4 and a DEATH row of
    quantity 3 in the window, the dashboard's outgoing total is
    [Math.abs(-4 + 3) = 1], where the claim (and the transactions page)
    gives [|-4| + |3| = 7]. *)
Theorem dashboard_outgoing_mixed_signs :
  let rows := [mkTransaction "DISTRIBUTE" (Some (-4)) 1 (mkLocalDate 2024 0 10);
               mkTransaction "DEATH" (Some 3) 1 (mkLocalDate 2024 0 12)] in
  DashboardTx.outgoing rows = 1 /\ outgoing_spec rows = 7 /\ TransaksiTx.outgoing rows = 7.
Proof. split; [|split]; reflexivity. Qed.

(** ** The six month buckets *)

Lemma days_in_month_ge_28 (y m : Z) : 28 <= days_in_month y m.
Proof.
  unfold days_in_month.
  destruct (Z.eqb m 1); [destruct (is_leap y)|destruct (existsb _ _)]; lia.
Qed.

(** Up to the 28th, [setMonth] moves to the requested month and keeps the day. *)
Lemma setMonth_short (dt : LocalDate) (m : Z) :
  1 <= d_day dt <= 28 ->
  setMonth dt m = mkLocalDate (d_year dt + m / 12) (m mod 12) (d_day dt).
Proof.
  intros Hd. unfold setMonth.
  destruct (Z.to_nat (d_day dt)) eqn:Hn; [lia|].
  cbn [carry_day].
  pose proof (days_in_month_ge_28 (d_year dt + m / 12) (m mod 12)).
  replace (Z.leb (d_day dt) _) with true by (symmetry; apply Z.leb_le; lia).
  reflexivity.
Qed.

Lemma month_number_setMonth (y m : Z) : month_number (y + m / 12) (m mod 12) = y * 12 + m.
Proof. unfold month_number. pose proof (Z.div_mod m 12). lia. Qed.

(** Up to the 28th of the month the buckets are the six calendar months
    ending at the current one, oldest first. *)
Lemma months_consecutive_until_28th (now : LocalDate) :
  1 <= d_day now <= 28 ->
  map (fun b => month_number (b_year b) (b_monthIndex b)) (months now)
  = map (fun i => month_number (d_year now) (d_month now) - 5 + Z.of_nat i) (seq 0 6).
Proof.
  intros Hd. unfold months. cbn [seq map rev app].
  rewrite !setMonth_short by exact Hd.
  cbn [d_year d_month b_year b_monthIndex map].
  rewrite !month_number_setMonth. unfold month_number.
  repeat match goal with |- (_ :: _) = (_ :: _) => f_equal; try lia end.
Qed.

(** C3 (code_bug): on 31 March 2024 [setMonth] overflows the shorter months
    (31 February is 2 March, 31 November is 1 December), so the series is
    Oct, Dec, Dec, Jan, Mar, Mar 2023-2024 instead of Oct 2023 - Mar 2024. *)
Theorem months_on_march_31 :
  map (fun b => (b_year b, b_monthIndex b)) (months (mkLocalDate 2024 2 31))
  = [(2023, 9); (2023, 11); (2023, 11); (2024, 0); (2024, 2); (2024, 2)]
  /\ map (fun b => b_month b) (months (mkLocalDate 2024 2 31))
     = ["October"; "December"; "December"; "January"; "March"; "March"].
Proof. split; reflexivity. Qed.

(** ** Transaction Command *)

(** C4: for a DISTRIBUTE, DEATH or DAMAGED submission whose pair has an
    inventory row holding fewer units than requested, [submitTransaction]
    fails with the insufficient-stock message, which contains the available
    quantity, after three reads and without calling [manage_inventory] or
    writing anything. *)
Theorem insufficient_stock_rejected_locally
  (v : Submit.SubmitValues) (dateValid : bool) (r : Submit.SubmitResponses)
  (tid wid q : Z) :
  is_outgoing (Submit.sv_transactionType v) = true ->
  Submit.sr_type r = Ok tid ->
  Submit.sr_weightClass r = Ok wid ->
  Submit.sr_inventory r = Submit.Row (Some q) ->
  q < Submit.sv_quantity v ->
  Submit.submitTransaction v dateValid r
  = ([OpSelect "lobster_types"; OpSelect "weight_classes"; OpSelect "inventory"],
     Failed (Submit.not_enough_msg v (js_number_to_string q)))
  /\ exists pre post,
       Submit.not_enough_msg v (js_number_to_string q) = pre ++ js_number_to_string q ++ post.
Proof.
  intros Hout Ht Hw Hinv Hlt. split.
  - unfold Submit.submitTransaction. rewrite Ht, Hw, Hout, Hinv. cbn [qty_or_zero].
    replace (Z.ltb q (Submit.sv_quantity v)) with true by (symmetry; now apply Z.ltb_lt).
    reflexivity.
  - exists "Not enough stock: only ", (" " ++ Submit.pair_label v ++ " available").
    reflexivity.
Qed.

(** The spec's scenario: 5 units of (A, 100-200) in stock, a DISTRIBUTE of 6. *)
Lemma insufficient_stock_rejected_locally_witness :
  Submit.submitTransaction
    (Submit.mkSubmitValues "A" "100-200" 6 "DISTRIBUTE" (Some "Pasar") None "2024-01-20T10:00")
    true (Submit.mkSubmitResponses (Ok 1) (Ok 2) (Submit.Row (Some 5)) None)
  = ([OpSelect "lobster_types"; OpSelect "weight_classes"; OpSelect "inventory"],
     Failed "Not enough stock: only 5 A (100-200) available").
Proof.
  apply (proj1 (insufficient_stock_rejected_locally
    (Submit.mkSubmitValues "A" "100-200" 6 "DISTRIBUTE" (Some "Pasar") None "2024-01-20T10:00")
    true (Submit.mkSubmitResponses (Ok 1) (Ok 2) (Submit.Row (Some 5)) None) 1 2 5
    eq_refl eq_refl eq_refl eq_refl ltac:(cbn; lia))).
Defined.

(** ** Write paths of the client *)

(** Case analysis over every [match] and [if] of a command. *)
Ltac split_branches :=
  repeat (match goal with
          | |- context [match ?x with _ => _ end] =>
              lazymatch x with
              | context [match _ with _ => _ end] => fail
              | _ => destruct x
              end
          end; cbn in * ).

Lemma submit_writes (v : Submit.SubmitValues) (dateValid : bool) (r : Submit.SubmitResponses) :
  writes (fst (Submit.submitTransaction v dateValid r)) = []
  \/ writes (fst (Submit.submitTransaction v dateValid r)) = [OpRpc "manage_inventory"].
Proof. unfold Submit.submitTransaction, writes. split_branches; auto. Qed.

Lemma edit_writes (editing : option Edit.EditTx) (f : Edit.EditForm) (txs : list Edit.PageTx)
  (r : Edit.EditResponses) :
  writes (fst (Edit.handleEditSubmit editing f txs r)) = []
  \/ writes (fst (Edit.handleEditSubmit editing f txs r)) = [OpUpdate "transactions"].
Proof. unfold Edit.handleEditSubmit, writes. split_branches; auto. Qed.

(** C6 (as amended): [submitTransaction] writes only through one call of
    [manage_inventory]; the transaction-edit path [handleEditSubmit] writes
    the [transactions] table directly with at most one update, and neither
    path writes [inventory] directly. *)
Theorem client_write_paths :
  (forall v dateValid r,
      writes (fst (Submit.submitTransaction v dateValid r)) = []
      \/ writes (fst (Submit.submitTransaction v dateValid r)) = [OpRpc "manage_inventory"])
  /\ (forall editing f txs r,
      writes (fst (Edit.handleEditSubmit editing f txs r)) = []
      \/ writes (fst (Edit.handleEditSubmit editing f txs r)) = [OpUpdate "transactions"]).
Proof. split; [exact submit_writes | exact edit_writes]. Qed.

(** C6 counterexample: editing a DISTRIBUTE transaction issues an update of
    the [transactions] table itself, not a call of [manage_inventory]. *)
Lemma edit_path_updates_transactions_directly :
  Edit.handleEditSubmit (Some (Edit.mkEditTx "tx-1" "DISTRIBUTE"))
    (Edit.mkEditForm "DISTRIBUTE" "1" "2" (Some 3) "2024-01-20" "Pasar" "")
    [] (Edit.mkEditResponses (Ok []) None)
  = ([OpUpdate "transactions"], Success).
Proof. reflexivity. Qed.

(** ** Failure atomicity of a refresh cycle *)

Lemma wc_get_set (k k' : string) v o :
  wc_get k (wc_set k' v o) = if String.eqb k k' then Some v else wc_get k o.
Proof.
  induction o as [|[k0 v0] o IH]; simpl.
  - reflexivity.
  - destruct (String.eqb_spec k' k0) as [->|Hne]; simpl.
    + destruct (String.eqb k k0); reflexivity.
    + rewrite IH. destruct (String.eqb_spec k k') as [->|Hkk'].
      * apply String.eqb_neq in Hne. now rewrite Hne.
      * reflexivity.
Qed.

Lemma set_weightClasses_id (s : DashState) : set_weightClasses_with (fun _ => weightClasses s) s = s.
Proof. destruct s; reflexivity. Qed.

Lemma set_weightClasses_twice (s : DashState) f g :
  set_weightClasses_with g (set_weightClasses_with f s) = set_weightClasses_with (fun w => g (f w)) s.
Proof. destruct s; reflexivity. Qed.

(** One round of l.174-177: at most one key is written, with [[]] on an
    error. *)
Lemma fetch_one_step (r : DashResponses) (ts : list LobsterType) (name : string) (s : DashState) :
  exists v : option (list WeightEntry),
    (match find_id_by_name ts name with
     | Some id => if Z.eqb id 0 then DashM.ret tt else DashboardCycle.fetchWeightClasses r id name
     | None => DashM.ret tt
     end) s
    = (match v with None => s | Some l => set_weightClasses_with (wc_set name l) s end, DashM.Done tt)
    /\ (forall id e, find_id_by_name ts name = Some id -> id <> 0 -> r_breakdown r id = Err e ->
                     v = Some []).
Proof.
  destruct (find_id_by_name ts name) as [id|] eqn:Hf.
  - destruct (Z.eqb_spec id 0) as [H0|H0].
    + exists None. split; [reflexivity|]. intros id' e Hid Hne. congruence.
    + unfold DashboardCycle.fetchWeightClasses.
      destruct (r_breakdown r id) as [rows|e] eqn:Hb.
      * exists (Some (map DashboardCycle.to_weight_entry rows)). split; [reflexivity|].
        intros id' e Hid _ Hb'. injection Hid as <-. congruence.
      * exists (Some []). split; [reflexivity|]. reflexivity.
  - exists None. split; [reflexivity|]. intros id e Hid. discriminate.
Qed.

Lemma fetch_all_spec (r : DashResponses) (ts : list LobsterType) (sbt : list StockByType) :
  forall s, NoDup (map sbt_lobster_type sbt) ->
  exists s',
    DashboardCycle.fetch_all_weight_classes r ts sbt s = (s', DashM.Done tt)
    /\ s' = set_weightClasses_with (fun _ => weightClasses s') s
    /\ (forall k, ~ In k (map sbt_lobster_type sbt) ->
                  wc_get k (weightClasses s') = wc_get k (weightClasses s))
    /\ (forall name id e, In name (map sbt_lobster_type sbt) ->
          find_id_by_name ts name = Some id -> id <> 0 -> r_breakdown r id = Err e ->
          wc_get name (weightClasses s') = Some []).
Proof.
  induction sbt as [|en sbt IH]; intros s Hnd.
  - exists s. repeat split.
    + symmetry. apply set_weightClasses_id.
    + intros name id e [].
  - simpl in Hnd. inversion Hnd as [|? ? Hnin Hnd']; subst.
    cbn [DashboardCycle.fetch_all_weight_classes]. unfold DashM.bind at 1.
    destruct (fetch_one_step r ts (sbt_lobster_type en) s) as [v [Hstep Hv]].
    rewrite Hstep.
    set (s1 := match v with None => s | Some l => set_weightClasses_with (wc_set (sbt_lobster_type en) l) s end).
    destruct (IH s1 Hnd') as [s' [Hrun [Hshape [Hkeep Herr]]]].
    exists s'. split; [exact Hrun|]. split; [|split].
    + rewrite Hshape at 1. subst s1. destruct v as [l|].
      * rewrite set_weightClasses_twice. reflexivity.
      * reflexivity.
    + intros k Hk. simpl in Hk. rewrite Hkeep by tauto. subst s1. destruct v as [l|]; [|reflexivity].
      cbn [weightClasses set_weightClasses_with]. rewrite wc_get_set.
      destruct (String.eqb_spec k (sbt_lobster_type en)) as [->|]; [tauto|reflexivity].
    + intros name id e Hin Hf Hne Hb. simpl in Hin.
      destruct Hin as [<-|Hin]; [|exact (Herr name id e Hin Hf Hne Hb)].
      rewrite Hkeep by exact Hnin. subst s1. rewrite (Hv id e Hf Hne Hb).
      cbn [weightClasses set_weightClasses_with]. rewrite wc_get_set, String.eqb_refl. reflexivity.
Qed.

(** C5 (as amended): when the reference-data reads or any of the four ledger
    queries fail, no displayed aggregate changes in that cycle; a failing
    per-type weight-class sub-fetch is absorbed by [fetchWeightClasses],
    which sets that type's breakdown to [[]] while the cycle commits every
    other aggregate. *)
Theorem refresh_cycle_failures (r : DashResponses) (s : DashState) :
  (main_fetch_failed r = true ->
   aggregates (DashboardCycle.fetchDashboardData r s) = aggregates s)
  /\ (forall ts wcs inv tx pie monthly name id e,
        r_lobsterTypes r = Ok ts -> r_weightClasses r = Ok wcs -> r_inventory r = Ok inv ->
        r_transactions r = Ok tx -> r_pie r = Ok pie -> r_monthly r = Ok monthly ->
        In name (map sbt_lobster_type (Dashboard.stockByTypeArray ts inv)) ->
        find_id_by_name ts name = Some id -> id <> 0 -> r_breakdown r id = Err e ->
        let s' := DashboardCycle.fetchDashboardData r s in
        wc_get name (weightClasses s') = Some []
        /\ totalStock s' = Dashboard.total inv
        /\ stockByType s' = Dashboard.stockByTypeArray ts inv
        /\ incomingThisMonth s' = DashboardTx.incoming tx
        /\ outgoingThisMonth s' = DashboardTx.outgoing tx
        /\ pieChartData s' = DashboardCycle.pieChartArray ts pie
        /\ chartData s' = DashboardCycle.monthlyChartData (r_now r) monthly
        /\ error s' = None).
Proof.
  split.
  - unfold main_fetch_failed. intros Hf.
    unfold DashboardCycle.fetchDashboardData, DashboardCycle.body, DashM.bind, DashM.await_data.
    destruct (r_lobsterTypes r); [|reflexivity].
    destruct (r_weightClasses r); [|reflexivity].
    destruct (r_inventory r); [|reflexivity].
    destruct (r_transactions r); [|reflexivity].
    destruct (r_pie r); [|reflexivity].
    destruct (r_monthly r); [|reflexivity].
    discriminate Hf.
  - intros ts wcs inv tx pie monthly name id e Hts Hwc Hinv Htx Hpie Hm Hin Hid Hne Hb s'.
    destruct (fetch_all_spec r ts (Dashboard.stockByTypeArray ts inv) (set_loading true s)
                (stockByType_labels_nodup ts inv))
      as [s1 [Hrun [_ [_ Herr]]]].
    assert (Hs' : s' = set_chartLoading false (set_loading false
              (commit (Dashboard.total inv) (Dashboard.stockByTypeArray ts inv)
                 (DashboardTx.incoming tx) (DashboardTx.outgoing tx)
                 (DashboardCycle.pieChartArray ts pie)
                 (DashboardCycle.monthlyChartData (r_now r) monthly) (r_clock r) s1))).
    { subst s'. unfold DashboardCycle.fetchDashboardData, DashboardCycle.body.
      unfold DashM.bind at 1. rewrite Hts. cbn [DashM.await_data DashM.ret].
      unfold DashM.bind at 1. rewrite Hwc. cbn [DashM.await_data DashM.ret].
      unfold DashM.bind at 1. rewrite Hinv. cbn [DashM.await_data DashM.ret].
      unfold DashM.bind at 1. rewrite Htx. cbn [DashM.await_data DashM.ret].
      unfold DashM.bind at 1. rewrite Hpie. cbn [DashM.await_data DashM.ret].
      unfold DashM.bind at 1. rewrite Hm. cbn [DashM.await_data DashM.ret].
      unfold DashM.bind at 1. rewrite Hrun. reflexivity. }
    rewrite Hs'. cbn.
    repeat split. exact (Herr name id e Hin Hid Hne Hb).
Qed.

Lemma refresh_cycle_failures_witness :
  aggregates (DashboardCycle.fetchDashboardData inventory_fails empty_dash_state)
  = aggregates empty_dash_state
  /\ wc_get "Rock" (weightClasses (DashboardCycle.fetchDashboardData ok_but_breakdown_timeout
                                    empty_dash_state)) = Some [].
Proof.
  split.
  - apply (proj1 (refresh_cycle_failures inventory_fails empty_dash_state)). reflexivity.
  - apply (proj2 (refresh_cycle_failures ok_but_breakdown_timeout empty_dash_state)
             [mkLobsterType 1 "Rock"] [mkWeightClass 2 "100-200"]
             [mkInventoryRow 1 (Some 4)] [] [] [] "Rock" 1 "Request timed out");
      try reflexivity.
    + simpl. left. reflexivity.
    + lia.
Defined.

(** C5 counterexample: the weight-class sub-fetch of type "Rock" times out,
    yet the cycle updates the aggregates: total stock 4, and the breakdown
    of "Rock" is set to [[]]. *)
Lemma weight_class_failure_still_commits :
  r_breakdown ok_but_breakdown_timeout 1 = Err "Request timed out"
  /\ totalStock (DashboardCycle.fetchDashboardData ok_but_breakdown_timeout empty_dash_state) = 4
  /\ weightClasses (DashboardCycle.fetchDashboardData ok_but_breakdown_timeout empty_dash_state)
     = [("Rock", [])]
  /\ aggregates (DashboardCycle.fetchDashboardData ok_but_breakdown_timeout empty_dash_state)
     <> aggregates empty_dash_state.
Proof.
  split; [reflexivity|]. split; [reflexivity|]. split; [reflexivity|].
  vm_compute. intros H. injection H. discriminate.
Qed.

(** ** Destination requirement of the form schema *)

Lemma drop_spaces_all (l : list ascii) :
  forallb FormSchema.is_js_space l = true -> FormSchema.drop_spaces l = [].
Proof.
  induction l as [|c l IH]; simpl; [reflexivity|].
  intros H. apply andb_prop in H as [Hc Hl]. rewrite Hc. now apply IH.
Qed.

Lemma js_trim_all_spaces (d : string) :
  forallb FormSchema.is_js_space (list_ascii_of_string d) = true -> FormSchema.js_trim d = "".
Proof. intros H. unfold FormSchema.js_trim. rewrite (drop_spaces_all _ H). reflexivity. Qed.

(** C8: for DISTRIBUTE, DEATH and DAMAGED a missing, empty or all-blank
    destination fails validation; for ADD an empty destination passes when
    the other fields are valid. *)
Theorem destination_requirement (date_parses : string -> bool) :
  (forall v : FormSchema.FormValues,
      is_outgoing (FormSchema.fv_transactionType v) = true ->
      (FormSchema.fv_destination v = None
       \/ exists d, FormSchema.fv_destination v = Some d
                    /\ forallb FormSchema.is_js_space (list_ascii_of_string d) = true) ->
      FormSchema.formSchema_valid date_parses v = false)
  /\ (forall v : FormSchema.FormValues,
      FormSchema.fv_transactionType v = "ADD" ->
      FormSchema.fv_destination v = Some "" ->
      FormSchema.object_ok date_parses v = true ->
      FormSchema.formSchema_valid date_parses v = true).
Proof.
  split.
  - intros v Hout Hd. unfold FormSchema.formSchema_valid, FormSchema.destination_ok.
    rewrite Hout. destruct Hd as [-> | [d [-> Hsp]]].
    + apply andb_false_r.
    + rewrite js_trim_all_spaces by exact Hsp. simpl. rewrite !andb_false_r. reflexivity.
  - intros v Hadd Hd Hobj. unfold FormSchema.formSchema_valid, FormSchema.destination_ok.
    rewrite Hadd, Hobj. reflexivity.
Qed.

Lemma destination_requirement_witness :
  FormSchema.formSchema_valid (fun _ => true)
    (FormSchema.mkFormValues "Pearl" "100-200" 2 "DEATH" (Some "") None "2024-01-20T10:00") = false
  /\ FormSchema.formSchema_valid (fun _ => true)
    (FormSchema.mkFormValues "Pearl" "100-200" 2 "ADD" (Some "") None "2024-01-20T10:00") = true.
Proof.
  split.
  - apply (proj1 (destination_requirement (fun _ => true))); [reflexivity|].
    right. exists "". split; reflexivity.
  - apply (proj2 (destination_requirement (fun _ => true))); reflexivity.
Defined.

(** ** Reference data cache *)

(** C9: once a call of [getLobsterTypes] has returned a sequence, the next
    call (with no [clearCache] in between) makes no round trip and returns
    the same sequence; the first call makes at most one round trip; after
    [clearCache] the next call makes a round trip again. *)
Theorem lobster_types_cached (srv : RefCache.Server) (w : RefCache.World) (l : list LobsterType) :
  snd (RefCache.getLobsterTypes srv w) = Ok l ->
  let w1 := fst (RefCache.getLobsterTypes srv w) in
  RefCache.getLobsterTypes srv w1 = (w1, Ok l)
  /\ (RefCache.w_lt_fetches w1 <= S (RefCache.w_lt_fetches w))%nat
  /\ RefCache.w_lt_fetches (fst (RefCache.getLobsterTypes srv (RefCache.clearCache w1)))
     = S (RefCache.w_lt_fetches w1).
Proof.
  unfold RefCache.getLobsterTypes.
  destruct (RefCache.c_lobsterTypes (RefCache.w_cache w)) as [l0|] eqn:Hc; cbn.
  - intros H. injection H as <-. rewrite Hc. split; [reflexivity|split; [lia|]].
    cbn. destruct (RefCache.srv_lobster_types srv _); reflexivity.
  - destruct (RefCache.srv_lobster_types srv (RefCache.w_lt_fetches w)) as [data|e]; cbn;
      [|discriminate].
    intros H. injection H as <-. split; [reflexivity|split; [lia|]].
    cbn. destruct (RefCache.srv_lobster_types srv _); reflexivity.
Qed.

Lemma lobster_types_cached_witness :
  RefCache.getLobsterTypes
    (RefCache.mkServer (fun _ => Ok (Some [mkLobsterType 1 "Rock"])) (fun _ => Ok None))
    (fst (RefCache.getLobsterTypes
       (RefCache.mkServer (fun _ => Ok (Some [mkLobsterType 1 "Rock"])) (fun _ => Ok None))
       (RefCache.mkWorld RefCache.empty_cache 0 0)))
  = (fst (RefCache.getLobsterTypes
       (RefCache.mkServer (fun _ => Ok (Some [mkLobsterType 1 "Rock"])) (fun _ => Ok None))
       (RefCache.mkWorld RefCache.empty_cache 0 0)), Ok [mkLobsterType 1 "Rock"]).
Proof.
  apply (proj1 (lobster_types_cached
    (RefCache.mkServer (fun _ => Ok (Some [mkLobsterType 1 "Rock"])) (fun _ => Ok None))
    (RefCache.mkWorld RefCache.empty_cache 0 0) [mkLobsterType 1 "Rock"] eq_refl)).
Defined.

(** ** Coalescing of change-feed bursts *)

Module DebounceFacts.
Import Debounce.

Section Facts.
Variable A : Type.

Lemma fire_idle (f : nat) due (st : DState A) : timerId A st = None -> fire f due st = st.
Proof. intros H. destruct f; simpl; [reflexivity|]. now rewrite H. Qed.

Lemma call_idle (st : DState A) (t : Z) (a : A) :
  timerId A st = None -> pending (call (fire_before st t) t a) t a (invocations A st).
Proof.
  intros H. unfold fire_before, fuel_to. rewrite H. cbn [fire].
  unfold call. rewrite H.
  destruct (shouldInvoke st t); cbn;
    (split; [exists (t + wait); split; [reflexivity|unfold wait; lia]|repeat split]).
Qed.

Lemma call_pending (st : DState A) (lc t : Z) (a a' : A) inv0 :
  pending st lc a inv0 -> lc <= t <= lc + 300 ->
  pending (call (fire_before st t) t a') t a' inv0.
Proof.
  intros [[e [He Hle]] [Hlc [Ha Hinv]]] Ht.
  unfold fire_before, fuel_to. rewrite He.
  destruct (Z.ltb_spec e t) as [Hlt|Hge].
  - (* the timer expires before the event and is re-armed at [lc + wait] *)
    destruct (Z.to_nat (t - e)) as [|k] eqn:Hk; [lia|].
    cbn [fire]. rewrite He. replace (Z.ltb e t) with true by (symmetry; now apply Z.ltb_lt).
    unfold timerExpired, shouldInvoke, remainingWait. rewrite Hlc.
    replace (Z.leb wait (e - lc) || Z.ltb (e - lc) 0) with false
      by (symmetry; apply orb_false_iff; split; [apply Z.leb_gt|apply Z.ltb_ge]; unfold wait in *; lia).
    cbn [fire timerId]. replace (Z.ltb (e + (wait - (e - lc))) t) with false
      by (symmetry; apply Z.ltb_ge; unfold wait in *; lia).
    unfold call. cbn. repeat split; auto.
    exists (e + (wait - (e - lc))). split; [reflexivity|unfold wait in *; lia].
  - (* no timer is due before the event *)
    cbn [fire]. rewrite He. replace (Z.ltb e t) with false by (symmetry; now apply Z.ltb_ge).
    unfold call. rewrite He. cbn. repeat split; auto.
    exists e. split; [reflexivity|unfold wait in *; lia].
Qed.

Lemma last_default {B : Type} (x : B) (l : list B) (d d' : B) : last (x :: l) d = last (x :: l) d'.
Proof.
  revert x. induction l as [|y l IH]; intros x; [reflexivity|].
  change (last (y :: l) d = last (y :: l) d'). apply IH.
Qed.

Lemma feed_pending (rest : list (Z * A)) :
  forall st lc a inv0,
  pending st lc a inv0 -> burst 300 ((lc, a) :: rest) ->
  pending (feed st rest) (fst (last ((lc, a) :: rest) (lc, a)))
          (snd (last ((lc, a) :: rest) (lc, a))) inv0.
Proof.
  induction rest as [|[t' a'] rest IH]; intros st lc a inv0 Hp Hb; [exact Hp|].
  destruct Hb as [Ht Hb].
  cbn [feed].
  change (last ((lc, a) :: (t', a') :: rest) (lc, a)) with (last ((t', a') :: rest) (lc, a)).
  rewrite (last_default (t', a') rest (lc, a) (t', a')).
  apply IH; [|exact Hb].
  eapply call_pending; [exact Hp|lia].
Qed.

Lemma settle_pending (st : DState A) lc a inv0 (h : Z) :
  pending st lc a inv0 -> lc + wait <= h ->
  invocations A (settle st h) = (inv0 ++ [(lc + wait, a)])%list.
Proof.
  intros [[e [He Hle]] [Hlc [Ha Hinv]]] Hh.
  unfold settle, fuel_to. rewrite He. cbn [fire]. rewrite He.
  replace (Z.leb e h) with true by (symmetry; apply Z.leb_le; lia).
  unfold timerExpired at 1, shouldInvoke at 1. rewrite Hlc.
  destruct (Z.eq_dec e (lc + wait)) as [Heq|Hne].
  - (* the first expiry is already [wait] after the last call *)
    replace (Z.leb wait (e - lc) || Z.ltb (e - lc) 0) with true
      by (symmetry; apply orb_true_iff; left; apply Z.leb_le; lia).
    unfold trailingEdge. rewrite Ha. cbn.
    rewrite fire_idle by reflexivity. cbn. now rewrite Hinv, Heq.
  - (* re-armed once at [lc + wait], then invoked *)
    replace (Z.leb wait (e - lc) || Z.ltb (e - lc) 0) with false
      by (symmetry; apply orb_false_iff; split; [apply Z.leb_gt|apply Z.ltb_ge]; lia).
    destruct (Z.to_nat (h - e)) as [|k] eqn:Hk; [lia|].
    unfold remainingWait. rewrite Hlc. cbn [fire timerId].
    replace (Z.leb (e + (wait - (e - lc))) h) with true by (symmetry; apply Z.leb_le; lia).
    unfold timerExpired, shouldInvoke. cbn [lastCallTime].
    replace (Z.leb wait (e + (wait - (e - lc)) - lc) || Z.ltb (e + (wait - (e - lc)) - lc) 0)
      with true by (symmetry; apply orb_true_iff; left; apply Z.leb_le; lia).
    unfold trailingEdge. cbn [lastArgs]. rewrite Ha. unfold invokeFunc.
    rewrite fire_idle by reflexivity. cbn [invocations]. rewrite Hinv. do 3 f_equal. lia.
Qed.

End Facts.
End DebounceFacts.

(** C10: change-feed events each at most 300 ms after the previous one, fed
    to the debounced re-aggregation while no timer is pending, cause no call
    during the burst and exactly one call afterwards, [wait] (1000 ms) after
    the last event, with the last event's payload. *)
Theorem debounced_burst_single_trailing_call {A : Type} (st0 : Debounce.DState A)
  (t0 : Z) (a0 : A) (rest : list (Z * A)) (h : Z) :
  Debounce.timerId A st0 = None ->
  Debounce.burst 300 ((t0, a0) :: rest) ->
  fst (last ((t0, a0) :: rest) (t0, a0)) + Debounce.wait <= h ->
  Debounce.invocations A (Debounce.feed st0 ((t0, a0) :: rest)) = Debounce.invocations A st0
  /\ Debounce.invocations A (Debounce.settle (Debounce.feed st0 ((t0, a0) :: rest)) h)
     = (Debounce.invocations A st0
        ++ [(fst (last ((t0, a0) :: rest) (t0, a0)) + Debounce.wait,
             snd (last ((t0, a0) :: rest) (t0, a0)))])%list.
Proof.
  intros Hidle Hb Hh.
  pose proof (DebounceFacts.call_idle A st0 t0 a0 Hidle) as Hp0.
  pose proof (DebounceFacts.feed_pending A rest _ t0 a0 _ Hp0 Hb) as Hp.
  cbn [Debounce.feed].
  split.
  - destruct Hp as [_ [_ [_ Hinv]]]. exact Hinv.
  - exact (DebounceFacts.settle_pending A _ _ _ _ h Hp Hh).
Qed.

(** The spec's scenario: five events within 300 ms of each other. *)
Lemma debounced_burst_single_trailing_call_witness :
  Debounce.invocations Z
    (Debounce.settle (Debounce.feed Debounce.init [(0, 1); (100, 2); (200, 3); (250, 4); (300, 5)])
       1300)
  = [(1300, 5)].
Proof.
  apply (proj2 (debounced_burst_single_trailing_call Debounce.init 0 1
                  [(100, 2); (200, 3); (250, 4); (300, 5)] 1300 eq_refl
                  ltac:(cbn; lia) ltac:(cbn; lia))).
Defined.

(* ================================================================== *)
(** * Further properties of the code *)

(** ** Reference data cache *)

(** X1: once [getWeightClasses] has returned a sequence, the next call
    returns it again without a round trip. *)
Theorem weight_classes_cached (srv : RefCache.Server) (w : RefCache.World) (l : list WeightClass) :
  snd (RefCache.getWeightClasses srv w) = Ok l ->
  let w1 := fst (RefCache.getWeightClasses srv w) in
  RefCache.getWeightClasses srv w1 = (w1, Ok l)
  /\ (RefCache.w_wc_fetches w1 <= S (RefCache.w_wc_fetches w))%nat.
Proof.
  unfold RefCache.getWeightClasses.
  destruct (RefCache.c_weightClasses (RefCache.w_cache w)) as [l0|] eqn:Hc; cbn.
  - intros H. injection H as <-. rewrite Hc. split; [reflexivity|lia].
  - destruct (RefCache.srv_weight_classes srv (RefCache.w_wc_fetches w)) as [data|e]; cbn;
      [|discriminate].
    intros H. injection H as <-. split; [reflexivity|lia].
Qed.

Lemma weight_classes_cached_witness :
  RefCache.getWeightClasses
    (RefCache.mkServer (fun _ => Ok None) (fun _ => Ok (Some [mkWeightClass 2 "100-200"])))
    (fst (RefCache.getWeightClasses
            (RefCache.mkServer (fun _ => Ok None) (fun _ => Ok (Some [mkWeightClass 2 "100-200"])))
            (RefCache.mkWorld RefCache.empty_cache 0 0)))
  = (fst (RefCache.getWeightClasses
            (RefCache.mkServer (fun _ => Ok None) (fun _ => Ok (Some [mkWeightClass 2 "100-200"])))
            (RefCache.mkWorld RefCache.empty_cache 0 0)), Ok [mkWeightClass 2 "100-200"]).
Proof.
  apply (proj1 (weight_classes_cached
    (RefCache.mkServer (fun _ => Ok None) (fun _ => Ok (Some [mkWeightClass 2 "100-200"])))
    (RefCache.mkWorld RefCache.empty_cache 0 0) [mkWeightClass 2 "100-200"] eq_refl)).
Defined.

(** X2: an error of the reference query is passed on without being cached:
    the cache is left as it was, and the next call queries again. *)
Theorem reference_error_not_cached (srv : RefCache.Server) (w : RefCache.World) :
  (forall e, RefCache.c_lobsterTypes (RefCache.w_cache w) = None ->
     RefCache.srv_lobster_types srv (RefCache.w_lt_fetches w) = Err e ->
     let (w1, res) := RefCache.getLobsterTypes srv w in
     res = Err e /\ RefCache.w_cache w1 = RefCache.w_cache w
     /\ RefCache.w_lt_fetches w1 = S (RefCache.w_lt_fetches w)
     /\ RefCache.w_lt_fetches (fst (RefCache.getLobsterTypes srv w1)) = S (S (RefCache.w_lt_fetches w)))
  /\ (forall e, RefCache.c_weightClasses (RefCache.w_cache w) = None ->
     RefCache.srv_weight_classes srv (RefCache.w_wc_fetches w) = Err e ->
     let (w1, res) := RefCache.getWeightClasses srv w in
     res = Err e /\ RefCache.w_cache w1 = RefCache.w_cache w
     /\ RefCache.w_wc_fetches w1 = S (RefCache.w_wc_fetches w)
     /\ RefCache.w_wc_fetches (fst (RefCache.getWeightClasses srv w1)) = S (S (RefCache.w_wc_fetches w))).
Proof.
  split; intros e Hc He.
  - unfold RefCache.getLobsterTypes at 1. rewrite Hc, He. cbn.
    split; [reflexivity|split; [reflexivity|split; [reflexivity|]]].
    unfold RefCache.getLobsterTypes. cbn. rewrite Hc.
    destruct (RefCache.srv_lobster_types srv (S (RefCache.w_lt_fetches w))); reflexivity.
  - unfold RefCache.getWeightClasses at 1. rewrite Hc, He. cbn.
    split; [reflexivity|split; [reflexivity|split; [reflexivity|]]].
    unfold RefCache.getWeightClasses. cbn. rewrite Hc.
    destruct (RefCache.srv_weight_classes srv (S (RefCache.w_wc_fetches w))); reflexivity.
Qed.

Lemma reference_error_not_cached_witness :
  let srv := RefCache.mkServer (fun n => if Nat.eqb n 0 then Err "offline" else Ok (Some []))
                               (fun n => if Nat.eqb n 0 then Err "offline" else Ok (Some [])) in
  let w := RefCache.mkWorld RefCache.empty_cache 0 0 in
  (let (w1, res) := RefCache.getLobsterTypes srv w in
   res = Err "offline" /\ RefCache.w_cache w1 = RefCache.w_cache w
   /\ RefCache.w_lt_fetches w1 = S (RefCache.w_lt_fetches w)
   /\ RefCache.w_lt_fetches (fst (RefCache.getLobsterTypes srv w1)) = S (S (RefCache.w_lt_fetches w)))
  /\ (let (w1, res) := RefCache.getWeightClasses srv w in
   res = Err "offline" /\ RefCache.w_cache w1 = RefCache.w_cache w
   /\ RefCache.w_wc_fetches w1 = S (RefCache.w_wc_fetches w)
   /\ RefCache.w_wc_fetches (fst (RefCache.getWeightClasses srv w1)) = S (S (RefCache.w_wc_fetches w))).
Proof.
  intros srv w. split.
  - apply (proj1 (reference_error_not_cached srv w)); reflexivity.
  - apply (proj2 (reference_error_not_cached srv w)); reflexivity.
Defined.

(** X3: a [null] answer without error is cached as the empty sequence, which
    is truthy, so later calls return [[]] without querying again. *)
Theorem null_reference_cached_as_empty (srv : RefCache.Server) (w : RefCache.World) :
  (RefCache.c_lobsterTypes (RefCache.w_cache w) = None ->
   RefCache.srv_lobster_types srv (RefCache.w_lt_fetches w) = Ok None ->
   let w1 := fst (RefCache.getLobsterTypes srv w) in
   snd (RefCache.getLobsterTypes srv w) = Ok [] /\ RefCache.getLobsterTypes srv w1 = (w1, Ok []))
  /\ (RefCache.c_weightClasses (RefCache.w_cache w) = None ->
   RefCache.srv_weight_classes srv (RefCache.w_wc_fetches w) = Ok None ->
   let w1 := fst (RefCache.getWeightClasses srv w) in
   snd (RefCache.getWeightClasses srv w) = Ok [] /\ RefCache.getWeightClasses srv w1 = (w1, Ok [])).
Proof.
  split; intros Hc Hs; cbv zeta.
  - unfold RefCache.getLobsterTypes. rewrite Hc, Hs. cbn. split; reflexivity.
  - unfold RefCache.getWeightClasses. rewrite Hc, Hs. cbn. split; reflexivity.
Qed.

Lemma null_reference_cached_as_empty_witness :
  snd (RefCache.getLobsterTypes (RefCache.mkServer (fun _ => Ok None) (fun _ => Ok None))
         (RefCache.mkWorld RefCache.empty_cache 0 0)) = Ok []
  /\ snd (RefCache.getWeightClasses (RefCache.mkServer (fun _ => Ok None) (fun _ => Ok None))
         (RefCache.mkWorld RefCache.empty_cache 0 0)) = Ok [].
Proof.
  split.
  - apply (proj1 (proj1 (null_reference_cached_as_empty
      (RefCache.mkServer (fun _ => Ok None) (fun _ => Ok None))
      (RefCache.mkWorld RefCache.empty_cache 0 0)) eq_refl eq_refl)).
  - apply (proj1 (proj2 (null_reference_cached_as_empty
      (RefCache.mkServer (fun _ => Ok None) (fun _ => Ok None))
      (RefCache.mkWorld RefCache.empty_cache 0 0)) eq_refl eq_refl)).
Defined.


(** ** Refresh cycle of the dashboard *)

(** A refresh cycle that gets past the six awaited reads: the state it ends
    in. *)
Lemma refresh_success_state (r : DashResponses) (s : DashState) ts wcs inv tx pie monthly :
  r_lobsterTypes r = Ok ts -> r_weightClasses r = Ok wcs -> r_inventory r = Ok inv ->
  r_transactions r = Ok tx -> r_pie r = Ok pie -> r_monthly r = Ok monthly ->
  exists s1,
    DashboardCycle.fetch_all_weight_classes r ts (Dashboard.stockByTypeArray ts inv)
      (set_loading true s) = (s1, DashM.Done tt)
    /\ s1 = set_weightClasses_with (fun _ => weightClasses s1) (set_loading true s)
    /\ DashboardCycle.fetchDashboardData r s
       = set_chartLoading false (set_loading false
           (commit (Dashboard.total inv) (Dashboard.stockByTypeArray ts inv)
              (DashboardTx.incoming tx) (DashboardTx.outgoing tx)
              (DashboardCycle.pieChartArray ts pie)
              (DashboardCycle.monthlyChartData (r_now r) monthly) (r_clock r) s1)).
Proof.
  intros Hts Hwc Hinv Htx Hpie Hm.
  destruct (fetch_all_spec r ts (Dashboard.stockByTypeArray ts inv) (set_loading true s)
              (stockByType_labels_nodup ts inv)) as [s1 [Hrun [Hshape _]]].
  exists s1. split; [exact Hrun|split; [exact Hshape|]].
  unfold DashboardCycle.fetchDashboardData, DashboardCycle.body.
  unfold DashM.bind at 1. rewrite Hts. cbn [DashM.await_data DashM.ret].
  unfold DashM.bind at 1. rewrite Hwc. cbn [DashM.await_data DashM.ret].
  unfold DashM.bind at 1. rewrite Hinv. cbn [DashM.await_data DashM.ret].
  unfold DashM.bind at 1. rewrite Htx. cbn [DashM.await_data DashM.ret].
  unfold DashM.bind at 1. rewrite Hpie. cbn [DashM.await_data DashM.ret].
  unfold DashM.bind at 1. rewrite Hm. cbn [DashM.await_data DashM.ret].
  unfold DashM.bind at 1. rewrite Hrun. reflexivity.
Qed.

(** A refresh cycle whose reads fail: the state before it with the message
    of the first failing read recorded. *)
Lemma refresh_failure_state (r : DashResponses) (s : DashState) :
  main_fetch_failed r = true ->
  exists m, DashboardCycle.fetchDashboardData r s
            = set_chartLoading false (set_loading false (set_error (Some m) (set_loading true s))).
Proof.
  unfold main_fetch_failed. intros Hf.
  unfold DashboardCycle.fetchDashboardData, DashboardCycle.body, DashM.bind, DashM.await_data.
  destruct (r_lobsterTypes r) as [?|m]; [|exists m; reflexivity].
  destruct (r_weightClasses r) as [?|m]; [|exists m; reflexivity].
  destruct (r_inventory r) as [?|m]; [|exists m; reflexivity].
  destruct (r_transactions r) as [?|m]; [|exists m; reflexivity].
  destruct (r_pie r) as [?|m]; [|exists m; reflexivity].
  destruct (r_monthly r) as [?|m]; [|exists m; reflexivity].
  discriminate Hf.
Qed.

(** X5: whatever the remote store answers, a refresh cycle ends with both
    loading flags cleared; when a read fails an error message is shown and
    [lastUpdated] keeps its value, otherwise the error is cleared and
    [lastUpdated] is set to the cycle's clock. *)
Theorem refresh_cycle_status (r : DashResponses) (s : DashState) :
  loading (DashboardCycle.fetchDashboardData r s) = false
  /\ chartLoading (DashboardCycle.fetchDashboardData r s) = false
  /\ (main_fetch_failed r = true ->
      (exists m, error (DashboardCycle.fetchDashboardData r s) = Some m)
      /\ lastUpdated (DashboardCycle.fetchDashboardData r s) = lastUpdated s)
  /\ (main_fetch_failed r = false ->
      error (DashboardCycle.fetchDashboardData r s) = None
      /\ lastUpdated (DashboardCycle.fetchDashboardData r s) = Some (r_clock r)).
Proof.
  split; [|split; [|split]].
  - unfold DashboardCycle.fetchDashboardData.
    destruct (DashboardCycle.body r (set_loading true s)) as [s2 [] ]; reflexivity.
  - unfold DashboardCycle.fetchDashboardData.
    destruct (DashboardCycle.body r (set_loading true s)) as [s2 [] ]; reflexivity.
  - intros Hf. destruct (refresh_failure_state r s Hf) as [m ->].
    split; [exists m|]; reflexivity.
  - intros Hf. unfold main_fetch_failed in Hf.
    destruct (r_lobsterTypes r) as [ts|] eqn:Hts; [|discriminate Hf].
    destruct (r_weightClasses r) as [wcs|] eqn:Hwc; [|discriminate Hf].
    destruct (r_inventory r) as [inv|] eqn:Hinv; [|discriminate Hf].
    destruct (r_transactions r) as [tx|] eqn:Htx; [|discriminate Hf].
    destruct (r_pie r) as [pie|] eqn:Hpie; [|discriminate Hf].
    destruct (r_monthly r) as [monthly|] eqn:Hm; [|discriminate Hf].
    destruct (refresh_success_state r s ts wcs inv tx pie monthly Hts Hwc Hinv Htx Hpie Hm)
      as [s1 [_ [_ ->]]].
    split; reflexivity.
Qed.

Lemma refresh_cycle_status_witness :
  (exists m, error (DashboardCycle.fetchDashboardData inventory_fails empty_dash_state) = Some m)
  /\ error (DashboardCycle.fetchDashboardData ok_but_breakdown_timeout empty_dash_state) = None.
Proof.
  split.
  - apply (proj1 (proj1 (proj2 (proj2 (refresh_cycle_status inventory_fails empty_dash_state)))
                   eq_refl)).
  - apply (proj1 (proj2 (proj2 (proj2 (refresh_cycle_status ok_but_breakdown_timeout
                                          empty_dash_state))) eq_refl)).
Defined.

Lemma fetch_all_keeps_keys (r : DashResponses) (ts : list LobsterType) (sbt : list StockByType) :
  forall s, exists s',
    DashboardCycle.fetch_all_weight_classes r ts sbt s = (s', DashM.Done tt)
    /\ s' = set_weightClasses_with (fun _ => weightClasses s') s
    /\ (forall k, wc_get k (weightClasses s) <> None -> wc_get k (weightClasses s') <> None).
Proof.
  induction sbt as [|en sbt IH]; intros s.
  - exists s. split; [reflexivity|split; [symmetry; apply set_weightClasses_id|tauto]].
  - cbn [DashboardCycle.fetch_all_weight_classes]. unfold DashM.bind at 1.
    destruct (fetch_one_step r ts (sbt_lobster_type en) s) as [v [Hstep _]].
    rewrite Hstep.
    set (s1 := match v with None => s | Some l => set_weightClasses_with (wc_set (sbt_lobster_type en) l) s end).
    destruct (IH s1) as [s' [Hrun [Hshape Hkeep]]].
    exists s'. split; [exact Hrun|split].
    + rewrite Hshape at 1. subst s1. destruct v as [l|].
      * rewrite set_weightClasses_twice. reflexivity.
      * reflexivity.
    + intros k Hk. apply Hkeep. subst s1. destruct v as [l|]; [|exact Hk].
      cbn [weightClasses set_weightClasses_with]. rewrite wc_get_set.
      destruct (String.eqb k (sbt_lobster_type en)); [discriminate|exact Hk].
Qed.

(** X6: a refresh cycle of the dashboard never removes a weight-class
    breakdown: [fetchWeightClasses] merges one type into the previous object,
    so every type that had a breakdown still has one afterwards. *)
Theorem refresh_keeps_breakdowns (r : DashResponses) (s : DashState) (k : string) :
  wc_get k (weightClasses s) <> None ->
  wc_get k (weightClasses (DashboardCycle.fetchDashboardData r s)) <> None.
Proof.
  intros Hk.
  destruct (main_fetch_failed r) eqn:Hf.
  - destruct (refresh_failure_state r s Hf) as [m ->]. exact Hk.
  - unfold main_fetch_failed in Hf.
    destruct (r_lobsterTypes r) as [ts|] eqn:Hts; [|discriminate Hf].
    destruct (r_weightClasses r) as [wcs|] eqn:Hwc; [|discriminate Hf].
    destruct (r_inventory r) as [inv|] eqn:Hinv; [|discriminate Hf].
    destruct (r_transactions r) as [tx|] eqn:Htx; [|discriminate Hf].
    destruct (r_pie r) as [pie|] eqn:Hpie; [|discriminate Hf].
    destruct (r_monthly r) as [monthly|] eqn:Hm; [|discriminate Hf].
    destruct (refresh_success_state r s ts wcs inv tx pie monthly Hts Hwc Hinv Htx Hpie Hm)
      as [s1 [Hrun [_ ->]]].
    destruct (fetch_all_keeps_keys r ts (Dashboard.stockByTypeArray ts inv) (set_loading true s))
      as [s1' [Hrun' [_ Hkeep]]].
    rewrite Hrun in Hrun'. injection Hrun' as <-.
    exact (Hkeep k Hk).
Qed.

Lemma refresh_keeps_breakdowns_witness :
  wc_get "Pearl" (weightClasses (DashboardCycle.fetchDashboardData ok_but_breakdown_timeout
    (mkDashState 0 0 0 [] [("Pearl", [mkWeightEntry "100-200" 3])] [] [] false false None None)))
  <> None.
Proof.
  apply (refresh_keeps_breakdowns ok_but_breakdown_timeout
    (mkDashState 0 0 0 [] [("Pearl", [mkWeightEntry "100-200" 3])] [] [] false false None None)
    "Pearl").
  discriminate.
Defined.

(** ** Pie chart of outgoing quantities *)

Lemma obj_set_nonneg (k : string) (v : Z) (o : js_obj) :
  Forall (fun kv => 0 <= snd kv) o -> 0 <= v -> Forall (fun kv => 0 <= snd kv) (obj_set k v o).
Proof.
  induction o as [|[k0 v0] o IH]; simpl; intros Ho Hv.
  - constructor; [exact Hv|constructor].
  - inversion Ho as [|? ? H0 Ho']; subst.
    destruct (String.eqb k k0); constructor; auto.
Qed.

Lemma obj_get_nonneg (k : string) (o : js_obj) :
  Forall (fun kv => 0 <= snd kv) o -> 0 <= qty_or_zero (obj_get k o).
Proof.
  induction o as [|[k0 v0] o IH]; simpl; intros Ho; [lia|].
  inversion Ho as [|? ? H0 Ho']; subst.
  destruct (String.eqb k k0); [exact H0|auto].
Qed.

(** A [reduce] that adds a value under a key per row. *)
Lemma obj_add_fold {B : Type} (lab : B -> string) (val : B -> Z) (rows : list B) (acc : js_obj) :
  sum_values (fold_left (fun acc r => obj_add (lab r) (val r) acc) rows acc)
    = sum_values acc + fold_right (fun r s => val r + s) 0 rows
  /\ (NoDup (map fst acc) -> NoDup (map fst (fold_left (fun acc r => obj_add (lab r) (val r) acc) rows acc)))
  /\ ((forall r, In r rows -> 0 <= val r) -> Forall (fun kv => 0 <= snd kv) acc ->
      Forall (fun kv => 0 <= snd kv) (fold_left (fun acc r => obj_add (lab r) (val r) acc) rows acc)).
Proof.
  revert acc. induction rows as [|r rows IH]; intros acc; simpl.
  - split; [lia|tauto].
  - destruct (IH (obj_add (lab r) (val r) acc)) as [Hs [Hn Hp]].
    split; [|split].
    + rewrite Hs, sum_values_add. lia.
    + intros Hnd. apply Hn. now apply keys_nodup_set.
    + intros Hv Hacc. apply Hp; [intros r' Hr'; apply Hv; now right|].
      unfold obj_add. apply obj_set_nonneg; [exact Hacc|].
      pose proof (obj_get_nonneg (lab r) acc Hacc). specialize (Hv r (or_introl eq_refl)). lia.
Qed.

(** X7: the pie chart has one entry per label, with a non-negative quantity,
    and its quantities add up to the sum of the absolute quantities of all
    the rows it is built from. *)
Theorem pie_chart_partition (types : list LobsterType) (rows : list Transaction) :
  Forall (fun e => 0 <= pie_quantity e) (DashboardCycle.pieChartArray types rows)
  /\ NoDup (map pie_lobster_type (DashboardCycle.pieChartArray types rows))
  /\ fold_right Z.add 0 (map pie_quantity (DashboardCycle.pieChartArray types rows))
     = fold_right Z.add 0 (map (fun t => Z.abs (qty_or_zero (tx_quantity t))) rows).
Proof.
  unfold DashboardCycle.pieChartArray.
  destruct (obj_add_fold (fun row => type_label types (tx_type_id row))
              (fun row => Z.abs (qty_or_zero (tx_quantity row))) rows []) as [Hs [Hn Hp]].
  set (o := fold_left (fun acc row => obj_add (type_label types (tx_type_id row))
                                      (Z.abs (qty_or_zero (tx_quantity row))) acc) rows []) in *.
  split; [|split].
  - assert (Ho : Forall (fun kv => 0 <= snd kv) o)
      by (apply Hp; [intros; lia|constructor]).
    clearbody o. clear Hs Hn Hp. induction o as [|kv o IHo]; simpl; [constructor|].
    inversion Ho; subst. constructor; [exact H1|auto].
  - rewrite map_map. cbn. rewrite map_ext with (g := fst) by reflexivity.
    apply Hn. constructor.
  - rewrite map_map. cbn.
    replace (fold_right Z.add 0 (map (fun x => snd x) o)) with (sum_values o).
    + rewrite Hs. cbn. clear. induction rows as [|t rows IH]; simpl; lia.
    + clear. induction o as [|kv o IH]; simpl; [reflexivity|]. unfold sum_values in *. simpl. lia.
Qed.

(** ** Monthly bar chart *)

Lemma incoming_filter (p : Transaction -> bool) (rows : list Transaction) :
  DashboardTx.incoming (filter p rows)
  = fold_right (fun t s => (if p t then (if is_add (tx_type t) then qty_or_zero (tx_quantity t) else 0)
                            else 0) + s) 0 rows.
Proof.
  unfold DashboardTx.incoming, sum_quantity. rewrite sum_quantity_acc. unfold sum_list.
  induction rows as [|t rows IH]; simpl; [reflexivity|].
  destruct (p t); simpl; [destruct (is_add (tx_type t)); simpl|]; lia.
Qed.

Lemma sum_map_add {X : Type} (f h : X -> Z) (l : list X) :
  fold_right Z.add 0 (map (fun x => f x + h x) l)
  = fold_right Z.add 0 (map f l) + fold_right Z.add 0 (map h l).
Proof. induction l as [|x l IH]; simpl; lia. Qed.

Lemma sum_swap {X Y : Type} (g : X -> Y -> Z) (xs : list X) (ys : list Y) :
  fold_right Z.add 0 (map (fun x => fold_right (fun y s => g x y + s) 0 ys) xs)
  = fold_right (fun y s => fold_right Z.add 0 (map (fun x => g x y) xs) + s) 0 ys.
Proof.
  induction ys as [|y ys IH]; simpl.
  - induction xs; simpl; lia.
  - rewrite (sum_map_add (fun x => g x y) (fun x => fold_right (fun y s => g x y + s) 0 ys)).
    rewrite IH. reflexivity.
Qed.

Lemma sum_unique {X : Type} (xs : list X) (m : X -> bool) (key : X -> Z) (k v : Z) :
  NoDup (map key xs) -> (forall x, In x xs -> m x = true -> key x = k) ->
  fold_right Z.add 0 (map (fun x => if m x then v else 0) xs) = if existsb m xs then v else 0.
Proof.
  induction xs as [|x xs IH]; simpl; intros Hnd Hk; [reflexivity|].
  inversion Hnd as [|? ? Hnin Hnd']; subst.
  rewrite IH by (auto; intros; apply Hk; auto).
  destruct (m x) eqn:Hm; simpl.
  - destruct (existsb m xs) eqn:He; [|lia].
    apply existsb_exists in He as [x' [Hin Hm']].
    exfalso. apply Hnin. rewrite (Hk x (or_introl eq_refl) Hm).
    rewrite <- (Hk x' (or_intror Hin) Hm'). now apply in_map.
  - lia.
Qed.

Lemma months_index_range (now : LocalDate) :
  1 <= d_day now <= 28 -> Forall (fun b => 0 <= b_monthIndex b <= 11) (months now).
Proof.
  intros Hd. unfold months. cbn [seq map rev app].
  rewrite !setMonth_short by exact Hd. cbn [d_month b_monthIndex].
  repeat constructor; cbn [b_monthIndex];
    match goal with |- context [?a mod 12] => pose proof (Z.mod_pos_bound a 12) end; lia.
Qed.

(** X8: up to the 28th of the month, the [Masuk] bars of the monthly chart
    together count every ADD row dated in the six calendar months ending
    with the current one exactly once, and no other row. *)
Theorem monthly_incoming_counts_window (now : LocalDate) (rows : list Transaction) :
  1 <= d_day now <= 28 ->
  fold_right Z.add 0 (map mp_Masuk (DashboardCycle.monthlyChartData now rows))
  = DashboardTx.incoming
      (filter (fun t =>
                 (0 <=? d_month (tx_date t)) && (d_month (tx_date t) <=? 11)
                 && (month_number (d_year now) (d_month now) - 5
                     <=? month_number (d_year (tx_date t)) (d_month (tx_date t)))
                 && (month_number (d_year (tx_date t)) (d_month (tx_date t))
                     <=? month_number (d_year now) (d_month now))) rows).
Proof.
  intros Hd.
  pose proof (months_consecutive_until_28th now Hd) as Hkeys.
  pose proof (months_index_range now Hd) as Hrange.
  set (N := month_number (d_year now) (d_month now)) in *.
  set (B := months now) in *.
  unfold DashboardCycle.monthlyChartData. fold B. rewrite map_map. cbn [mp_Masuk].
  rewrite map_ext with
    (g := fun b => fold_right (fun t s =>
             (if Z.eqb (d_year (tx_date t)) (b_year b) && Z.eqb (d_month (tx_date t)) (b_monthIndex b)
              then (if is_add (tx_type t) then qty_or_zero (tx_quantity t) else 0) else 0) + s) 0 rows)
    by (intros b; apply incoming_filter).
  rewrite (sum_swap (fun b t =>
             if Z.eqb (d_year (tx_date t)) (b_year b) && Z.eqb (d_month (tx_date t)) (b_monthIndex b)
             then (if is_add (tx_type t) then qty_or_zero (tx_quantity t) else 0) else 0)).
  rewrite incoming_filter.
  induction rows as [|t rows IH]; [reflexivity|]. cbn [fold_right]. rewrite IH. f_equal.
  assert (Hnd : NoDup (map (fun b => month_number (b_year b) (b_monthIndex b)) B)).
  { rewrite Hkeys. cbn. repeat constructor; cbn; intuition lia. }
  rewrite (sum_unique B
             (fun b => Z.eqb (d_year (tx_date t)) (b_year b) && Z.eqb (d_month (tx_date t)) (b_monthIndex b))
             (fun b => month_number (b_year b) (b_monthIndex b))
             (month_number (d_year (tx_date t)) (d_month (tx_date t))) _ Hnd).
  2: { intros b _ Hm. apply andb_prop in Hm as [Hy Hm].
       apply Z.eqb_eq in Hy, Hm. now rewrite Hy, Hm. }
  set (yt := d_year (tx_date t)). set (mt := d_month (tx_date t)).
  assert (Hwin : existsb (fun b => Z.eqb yt (b_year b) && Z.eqb mt (b_monthIndex b)) B
                 = (0 <=? mt) && (mt <=? 11) && (N - 5 <=? month_number yt mt)
                   && (month_number yt mt <=? N)).
  { destruct (existsb _ B) eqn:He; symmetry.
    - apply existsb_exists in He as [b [Hin Hm]].
      apply andb_prop in Hm as [Hy Hm]. apply Z.eqb_eq in Hy, Hm.
      pose proof (proj1 (Forall_forall _ B) Hrange b Hin) as Hb.
      assert (Hk : In (month_number (b_year b) (b_monthIndex b))
                      (map (fun b => month_number (b_year b) (b_monthIndex b)) B))
        by exact (in_map (fun b => month_number (b_year b) (b_monthIndex b)) B b Hin).
      rewrite Hkeys in Hk. apply in_map_iff in Hk as [i [Hi Hseq]]. apply in_seq in Hseq.
      unfold month_number in *.
      repeat (apply andb_true_intro; split); apply Z.leb_le; lia.
    - apply not_true_iff_false. intros Hw.
      repeat (apply andb_prop in Hw as [Hw ?]). apply Z.leb_le in Hw.
      repeat match goal with H : (_ <=? _) = true |- _ => apply Z.leb_le in H end.
      assert (Hk : In (month_number yt mt) (map (fun b => month_number (b_year b) (b_monthIndex b)) B)).
      { rewrite Hkeys. apply in_map_iff. exists (Z.to_nat (month_number yt mt - (N - 5))).
        split; [lia|]. apply in_seq. lia. }
      apply in_map_iff in Hk as [b [Hkb Hin]].
      pose proof (proj1 (Forall_forall _ B) Hrange b Hin) as Hb.
      assert (Hby : b_year b = yt /\ b_monthIndex b = mt) by (unfold month_number in *; lia).
      apply not_true_iff_false in He. apply He. apply existsb_exists. exists b. split; [exact Hin|].
      destruct Hby as [-> ->]. now rewrite !Z.eqb_refl. }
  rewrite Hwin. reflexivity.
Qed.

Lemma monthly_incoming_counts_window_witness :
  fold_right Z.add 0
    (map mp_Masuk (DashboardCycle.monthlyChartData (mkLocalDate 2024 1 15)
       [mkTransaction "ADD" (Some 4) 1 (mkLocalDate 2023 11 3);
        mkTransaction "ADD" (Some 7) 1 (mkLocalDate 2023 7 3);
        mkTransaction "DISTRIBUTE" (Some 2) 1 (mkLocalDate 2024 1 1)])) = 4.
Proof.
  rewrite (monthly_incoming_counts_window (mkLocalDate 2024 1 15)
     [mkTransaction "ADD" (Some 4) 1 (mkLocalDate 2023 11 3);
      mkTransaction "ADD" (Some 7) 1 (mkLocalDate 2023 7 3);
      mkTransaction "DISTRIBUTE" (Some 2) 1 (mkLocalDate 2024 1 1)] ltac:(cbn; lia)).
  vm_compute. reflexivity.
Defined.

(** ** Stock page *)

Lemma grouped_opt_fold {B : Type} (lab : B -> option string) (val : B -> Z) (rows : list B)
  (acc : js_obj) :
  sum_values (fold_left (fun acc r => match lab r with
                                      | Some n => obj_add n (val r) acc
                                      | None => acc end) rows acc)
    = sum_values acc + fold_right (fun r s => (match lab r with Some _ => val r | None => 0 end) + s) 0 rows
  /\ (NoDup (map fst acc) ->
      NoDup (map fst (fold_left (fun acc r => match lab r with
                                              | Some n => obj_add n (val r) acc
                                              | None => acc end) rows acc))).
Proof.
  revert acc. induction rows as [|r rows IH]; intros acc; simpl.
  - split; [lia|tauto].
  - destruct (lab r) as [n|].
    + destruct (IH (obj_add n (val r) acc)) as [Hs Hn]. split.
      * rewrite Hs, sum_values_add. lia.
      * intros Hnd. apply Hn. now apply keys_nodup_set.
    + destruct (IH acc) as [Hs Hn]. split; [rewrite Hs; lia|exact Hn].
Qed.

(** X9: the stock page's per-type totals add up to the quantity of the rows
    whose type resolves to a non-empty name, each type listed once. *)
Theorem stock_page_sums_resolved (types : list LobsterType) (rows : list InventoryRow) :
  sum_stock (StockPage.stockByTypeArray types rows)
  = fold_right (fun r s => (match StockPage.resolved_name types (inv_type_id r) with
                            | Some _ => qty_or_zero (inv_quantity r)
                            | None => 0 end) + s) 0 rows
  /\ NoDup (map sbt_lobster_type (StockPage.stockByTypeArray types rows)).
Proof.
  unfold StockPage.stockByTypeArray, StockPage.grouped.
  rewrite sum_stock_entries, labels_entries.
  destruct (grouped_opt_fold (fun r => StockPage.resolved_name types (inv_type_id r))
              (fun r => qty_or_zero (inv_quantity r)) rows []) as [Hs Hn].
  split; [rewrite Hs; reflexivity|apply Hn; constructor].
Qed.

Lemma wc_keys_set_fresh (k : string) v (o : list (string * list WeightEntry)) :
  ~ In k (map fst o) -> map fst (wc_set k v o) = app (map fst o) [k].
Proof.
  induction o as [|[k0 v0] o IH]; simpl; intros Hn; [reflexivity|].
  destruct (String.eqb_spec k k0) as [->|]; [exfalso; apply Hn; now left|].
  simpl. f_equal. apply IH. tauto.
Qed.

Lemma wc_fold_other (F : string -> list WeightEntry) (names : list string) (k : string) :
  ~ In k names -> forall acc,
  wc_get k (fold_left (fun acc n => wc_set n (F n) acc) names acc) = wc_get k acc.
Proof.
  induction names as [|n names IH]; intros Hk acc; simpl; [reflexivity|].
  rewrite IH by (intros H; apply Hk; now right). rewrite wc_get_set.
  destruct (String.eqb_spec k n) as [->|]; [exfalso; apply Hk; now left|reflexivity].
Qed.

Lemma wc_fold_set (F : string -> list WeightEntry) (names : list string) :
  forall acc, NoDup names -> (forall n, In n names -> ~ In n (map fst acc)) ->
  map fst (fold_left (fun acc n => wc_set n (F n) acc) names acc) = app (map fst acc) names
  /\ (forall n, In n names -> wc_get n (fold_left (fun acc n => wc_set n (F n) acc) names acc) = Some (F n)).
Proof.
  induction names as [|n names IH]; intros acc Hnd Hfresh; simpl.
  - rewrite app_nil_r. split; [reflexivity|tauto].
  - inversion Hnd as [|? ? Hnin Hnd']; subst.
    destruct (IH (wc_set n (F n) acc) Hnd') as [Hk Hv].
    { intros n' Hin'. rewrite wc_keys_set_fresh by (apply Hfresh; now left).
      rewrite in_app_iff. intros [H|[H|[]]].
      - exact (Hfresh n' (or_intror Hin') H).
      - subst. contradiction. }
    split.
    + rewrite Hk, wc_keys_set_fresh by (apply Hfresh; now left). now rewrite <- app_assoc.
    + intros n' [<-|Hin'].
      * rewrite wc_fold_other by exact Hnin. rewrite wc_get_set, String.eqb_refl. reflexivity.
      * exact (Hv n' Hin').
Qed.

Lemma stock_weight_classes_spec (lobsterTypes : list LobsterType)
  (resp : list Z -> remote (list StockWeights.StokInvRow)) (names : list string) :
  NoDup names ->
  map fst (StockWeights.fetchWeightClasses lobsterTypes resp names) = names
  /\ (forall n, In n names ->
        wc_get n (StockWeights.fetchWeightClasses lobsterTypes resp names)
        = Some (match resp (StockWeights.requested_ids lobsterTypes names) with
                | Ok data => StockWeights.breakdown lobsterTypes data n
                | Err _ => []
                end))
  /\ (forall data n, find_id_by_name lobsterTypes n = None ->
        StockWeights.breakdown lobsterTypes data n = []).
Proof.
  intros Hnd. split; [|split].
  - unfold StockWeights.fetchWeightClasses.
    destruct (resp _) as [data|e].
    + exact (proj1 (wc_fold_set (StockWeights.breakdown lobsterTypes data) names [] Hnd
                      (fun _ _ H => H))).
    + exact (proj1 (wc_fold_set (fun _ => []) names [] Hnd (fun _ _ H => H))).
  - intros n Hin. unfold StockWeights.fetchWeightClasses.
    destruct (resp _) as [data|e].
    + exact (proj2 (wc_fold_set (StockWeights.breakdown lobsterTypes data) names [] Hnd
                      (fun _ _ H => H)) n Hin).
    + exact (proj2 (wc_fold_set (fun _ => []) names [] Hnd (fun _ _ H => H)) n Hin).
  - intros data n Hn. unfold StockWeights.breakdown. rewrite Hn.
    induction data as [|row data IH]; [reflexivity|exact IH].
Qed.

(** X10: the stock page's [fetchWeightClasses(types)] builds an object with
    exactly one key per requested type, in order: on success the type's
    rows of the answer (none for a name that matches no lobster type), after
    an error or the timeout [[]] for every type. *)
Theorem stock_weight_classes_result (lobsterTypes : list LobsterType)
  (resp : list Z -> remote (list StockWeights.StokInvRow)) (names : list string) :
  NoDup names ->
  map fst (StockWeights.fetchWeightClasses lobsterTypes resp names) = names
  /\ (forall n, In n names ->
        wc_get n (StockWeights.fetchWeightClasses lobsterTypes resp names)
        = Some (match resp (StockWeights.requested_ids lobsterTypes names) with
                | Ok data => StockWeights.breakdown lobsterTypes data n
                | Err _ => []
                end))
  /\ (forall data n, find_id_by_name lobsterTypes n = None ->
        StockWeights.breakdown lobsterTypes data n = []).
Proof. exact (stock_weight_classes_spec lobsterTypes resp names). Qed.

Lemma stock_weight_classes_result_witness :
  map fst (StockWeights.fetchWeightClasses [mkLobsterType 1 "Pearl"]
             (fun _ => Err "Request timed out") ["Pearl"; "Rock"]) = ["Pearl"; "Rock"].
Proof.
  apply (proj1 (stock_weight_classes_result [mkLobsterType 1 "Pearl"]
                  (fun _ => Err "Request timed out") ["Pearl"; "Rock"]
                  ltac:(repeat constructor; cbn; intuition discriminate))).
Defined.

(** X11: after an inventory or transaction change of a known, named type,
    the stock page's [weightClasses] holds that type alone: the breakdowns of
    every other type are dropped, whatever was shown before. *)
Theorem stock_change_replaces_breakdowns (lobsterTypes : list LobsterType)
  (resp : list Z -> remote (list StockWeights.StokInvRow)) (affectedTypeId : Z)
  (t : LobsterType) (prev : list (string * list WeightEntry)) :
  find_type_by_id lobsterTypes affectedTypeId = Some t -> lt_name t <> "" ->
  map fst (StockWeights.onChange lobsterTypes resp affectedTypeId prev) = [lt_name t].
Proof.
  intros Ht Hn. unfold StockWeights.onChange. rewrite Ht.
  destruct (String.eqb_spec (lt_name t) "") as [|_]; [contradiction|].
  apply (proj1 (stock_weight_classes_spec lobsterTypes resp [lt_name t]
                  ltac:(repeat constructor; intros []))).
Qed.

Lemma stock_change_replaces_breakdowns_witness :
  map fst (StockWeights.onChange [mkLobsterType 1 "Pearl"; mkLobsterType 2 "Rock"]
             (fun _ => Ok []) 1 [("Rock", []); ("Pearl", [])]) = ["Pearl"].
Proof.
  apply (stock_change_replaces_breakdowns [mkLobsterType 1 "Pearl"; mkLobsterType 2 "Rock"]
           (fun _ => Ok []) 1 (mkLobsterType 1 "Pearl") [("Rock", []); ("Pearl", [])]
           eq_refl ltac:(discriminate)).
Defined.

(** X12: the available stock the form shows is the stock the submission
    checks against: with both lookups answering and the pair's inventory
    read not failing, an outgoing submission whose pair shows [n] units
    reaches [manage_inventory] exactly when its quantity is at most [n],
    [n] is not 0 and the date is valid. With the type or the weight class
    not chosen yet, nothing is queried and no stock is shown. *)
Theorem available_stock_matches_submit_check
  (v : Submit.SubmitValues) (dateValid : bool) (r : Submit.SubmitResponses) (tid wid n : Z) :
  (forall wc, fetchAvailableStock "" wc r = ([], None))
  /\ (forall lt, fetchAvailableStock lt "" r = ([], None))
  /\ (is_outgoing (Submit.sv_transactionType v) = true ->
      Submit.sr_type r = Ok tid -> Submit.sr_weightClass r = Ok wid ->
      (forall m, Submit.sr_inventory r <> Submit.QueryErr m) ->
      snd (fetchAvailableStock (Submit.sv_lobsterType v) (Submit.sv_weightClass v) r) = Some n ->
      (In (OpRpc "manage_inventory") (fst (Submit.submitTransaction v dateValid r))
       <-> Submit.sv_quantity v <= n /\ n <> 0 /\ dateValid = true)).
Proof.
  split; [|split].
  - intros wc. reflexivity.
  - intros lt. unfold fetchAvailableStock. rewrite orb_true_r. reflexivity.
  - intros Hout Ht Hw Hinv Hn.
    assert (Hcur : match Submit.sr_inventory r with
                   | Submit.Row q => qty_or_zero q
                   | Submit.NoRow => 0
                   | Submit.QueryErr _ => 0
                   end = n /\ forall m, Submit.sr_inventory r <> Submit.QueryErr m).
    { split; [|exact Hinv]. unfold fetchAvailableStock in Hn. rewrite Ht, Hw in Hn.
      destruct (_ || _); [discriminate|]. cbn [snd] in Hn.
      destruct (Submit.sr_inventory r); congruence. }
    destruct Hcur as [Hcur _].
    unfold Submit.submitTransaction. rewrite Ht, Hw, Hout.
    replace (match Submit.sr_inventory r with
             | Submit.Row q => inl (qty_or_zero q)
             | Submit.NoRow => inl 0
             | Submit.QueryErr m => inr m
             end) with (inl n : Z + string)
      by (destruct (Submit.sr_inventory r) as [q| |m];
          [congruence|congruence|exfalso; exact (Hinv m eq_refl)]).
    destruct (Z.ltb_spec n (Submit.sv_quantity v)) as [Hlt|Hge].
    { cbn. split; [intros [H|[H|[H|[]]]]; discriminate|lia]. }
    destruct (Z.eqb_spec n 0) as [Hz|Hnz].
    { cbn. split; [intros [H|[H|[H|[]]]]; discriminate|lia]. }
    destruct dateValid; cbn.
    + destruct (Submit.sr_rpc r); cbn; split; intros H;
        [split; [lia|split; [exact Hnz|reflexivity]] | right; right; right; left; reflexivity
        |split; [lia|split; [exact Hnz|reflexivity]] | right; right; right; left; reflexivity].
    + split; [intros [H|[H|[H|[]]]]; discriminate|intros [_ [_ H]]; discriminate].
Qed.

Lemma available_stock_matches_submit_check_witness :
  In (OpRpc "manage_inventory")
     (fst (Submit.submitTransaction
             (Submit.mkSubmitValues "A" "100-200" 5 "DISTRIBUTE" (Some "Pasar") None "2024-01-20T10:00")
             true (Submit.mkSubmitResponses (Ok 1) (Ok 2) (Submit.Row (Some 5)) None))).
Proof.
  apply (proj2 (proj2 (proj2 (available_stock_matches_submit_check
    (Submit.mkSubmitValues "A" "100-200" 5 "DISTRIBUTE" (Some "Pasar") None "2024-01-20T10:00")
    true (Submit.mkSubmitResponses (Ok 1) (Ok 2) (Submit.Row (Some 5)) None) 1 2 5))
    eq_refl eq_refl eq_refl ltac:(discriminate) eq_refl)).
  split; [cbn; lia|split; [discriminate|reflexivity]].
Defined.

(** ** Default date of the transaction form *)

Lemma two_digit_fields_checked :
  forallb (fun n => two_digit_field_ok (Z.of_nat n)) (seq 0 100) = true.
Proof. vm_compute. reflexivity. Qed.

Lemma four_digit_fields_checked :
  forallb (fun n => four_digit_field_ok (Z.of_nat n)) (seq (Z.to_nat 1000) (Z.to_nat 9000)) = true.
Proof. vm_compute. reflexivity. Qed.

Lemma two_digit_field (k : Z) :
  0 <= k <= 99 ->
  exists a b, padStart2 (js_number_to_string k) = String a (String b EmptyString)
              /\ parse_decimal (String a (String b EmptyString)) = Some k.
Proof.
  intros Hk.
  assert (Hc : two_digit_field_ok k = true).
  { pose proof (proj1 (forallb_forall _ _) two_digit_fields_checked (Z.to_nat k)) as H.
    cbv beta in H. rewrite Z2Nat.id in H by lia. apply H. apply in_seq. lia. }
  unfold two_digit_field_ok in Hc.
  destruct (padStart2 (js_number_to_string k)) as [|a [|b [|c s]]]; try discriminate.
  exists a, b. split; [reflexivity|].
  destruct (parse_decimal _) as [k'|]; [|discriminate].
  apply Z.eqb_eq in Hc. now subst.
Qed.

Lemma four_digit_field (k : Z) :
  1000 <= k <= 9999 ->
  exists a b c d, js_number_to_string k = String a (String b (String c (String d EmptyString)))
                  /\ parse_decimal (String a (String b (String c (String d EmptyString)))) = Some k.
Proof.
  intros Hk.
  assert (Hc : four_digit_field_ok k = true).
  { pose proof (proj1 (forallb_forall _ _) four_digit_fields_checked (Z.to_nat k)) as H.
    cbv beta in H. rewrite Z2Nat.id in H by lia. apply H. apply in_seq. lia. }
  unfold four_digit_field_ok in Hc.
  destruct (js_number_to_string k) as [|a [|b [|c [|d [|e s]]]]]; try discriminate.
  exists a, b, c, d. split; [reflexivity|].
  destruct (parse_decimal _) as [k'|]; [|discriminate].
  apply Z.eqb_eq in Hc. now subst.
Qed.

(** X13: for the field ranges of a four-digit year, [getCurrentDateTime]
    gives a 16-character [YYYY-MM-DDTHH:mm] value: the separators sit at
    positions 4, 7, 10 and 13, and the digit groups read back as the year,
    the month counted from 1, the day, the hours and the minutes. *)
Theorem current_datetime_round_trip (now : LocalDateTime) :
  1000 <= ldt_year now <= 9999 -> 0 <= ldt_month now <= 11 -> 1 <= ldt_day now <= 31 ->
  0 <= ldt_hours now <= 23 -> 0 <= ldt_minutes now <= 59 ->
  let s := getCurrentDateTime now in
  String.length s = 16%nat
  /\ String.get 4 s = Some "-"%char /\ String.get 7 s = Some "-"%char
  /\ String.get 10 s = Some "T"%char /\ String.get 13 s = Some ":"%char
  /\ parse_decimal (substring 0 4 s) = Some (ldt_year now)
  /\ parse_decimal (substring 5 2 s) = Some (ldt_month now + 1)
  /\ parse_decimal (substring 8 2 s) = Some (ldt_day now)
  /\ parse_decimal (substring 11 2 s) = Some (ldt_hours now)
  /\ parse_decimal (substring 14 2 s) = Some (ldt_minutes now).
Proof.
  intros Hy Hmo Hd Hh Hmi. cbv zeta. unfold getCurrentDateTime.
  destruct (four_digit_field (ldt_year now) Hy) as [y1 [y2 [y3 [y4 [-> Py]]]]].
  destruct (two_digit_field (ldt_month now + 1) ltac:(lia)) as [m1 [m2 [-> Pm]]].
  destruct (two_digit_field (ldt_day now) ltac:(lia)) as [d1 [d2 [-> Pd]]].
  destruct (two_digit_field (ldt_hours now) ltac:(lia)) as [h1 [h2 [-> Ph]]].
  destruct (two_digit_field (ldt_minutes now) ltac:(lia)) as [n1 [n2 [-> Pn]]].
  cbn. repeat split; assumption.
Qed.

Lemma current_datetime_round_trip_witness :
  getCurrentDateTime (mkLocalDateTime 2024 0 5 9 7) = "2024-01-05T09:07"
  /\ parse_decimal (substring 5 2 (getCurrentDateTime (mkLocalDateTime 2024 0 5 9 7))) = Some 1.
Proof.
  split; [vm_compute; reflexivity|].
  destruct (current_datetime_round_trip (mkLocalDateTime 2024 0 5 9 7)
              ltac:(cbn; lia) ltac:(cbn; lia) ltac:(cbn; lia) ltac:(cbn; lia) ltac:(cbn; lia))
    as (_ & _ & _ & _ & _ & _ & Hm & _).
  exact Hm.
Defined.

(** ** Submissions that add stock *)

(** X14: a submission whose type is not outgoing (an [ADD]) is not checked
    against the stock: once both lookups answer and the date is valid, it
    reads no inventory row before [manage_inventory], and its calls and
    outcome depend only on the procedure's answer. *)
Theorem add_submission_skips_stock_check (v : Submit.SubmitValues) (r : Submit.SubmitResponses)
  (tid wid : Z) :
  is_outgoing (Submit.sv_transactionType v) = false ->
  Submit.sr_type r = Ok tid -> Submit.sr_weightClass r = Ok wid ->
  Submit.submitTransaction v true r
  = match Submit.sr_rpc r with
    | Some m => ([OpSelect "lobster_types"; OpSelect "weight_classes"; OpRpc "manage_inventory"],
                 Failed (Submit.classify_rpc_error v m))
    | None => ([OpSelect "lobster_types"; OpSelect "weight_classes"; OpRpc "manage_inventory";
                OpSelect "inventory"; OpSelect "inventory"], Success)
    end.
Proof.
  intros Hout Ht Hw. unfold Submit.submitTransaction. rewrite Ht, Hw, Hout. cbn.
  destruct (Submit.sr_rpc r); reflexivity.
Qed.

Lemma add_submission_skips_stock_check_witness :
  Submit.submitTransaction
    (Submit.mkSubmitValues "A" "100-200" 500 "ADD" None None "2024-01-20T10:00") true
    (Submit.mkSubmitResponses (Ok 1) (Ok 2) (Submit.QueryErr "timeout") None)
  = ([OpSelect "lobster_types"; OpSelect "weight_classes"; OpRpc "manage_inventory";
      OpSelect "inventory"; OpSelect "inventory"], Success).
Proof.
  exact (add_submission_skips_stock_check
    (Submit.mkSubmitValues "A" "100-200" 500 "ADD" None None "2024-01-20T10:00")
    (Submit.mkSubmitResponses (Ok 1) (Ok 2) (Submit.QueryErr "timeout") None) 1 2
    eq_refl eq_refl eq_refl).
Defined.

(** ** Editing a transaction *)

Lemma filter_drop_implied {X : Type} (p o : X -> bool) (l : list X) :
  (forall x, p x = true -> o x = true) -> filter p (filter o l) = filter p l.
Proof.
  intros Himp. induction l as [|x l IH]; [reflexivity|]. cbn.
  destruct (o x) eqn:Ho; cbn.
  - destruct (p x); [f_equal|]; exact IH.
  - destruct (p x) eqn:Hp; [rewrite (Himp x Hp) in Ho; discriminate|exact IH].
Qed.

(** X15: [validateStock] only looks at the page's other rows: dropping the
    rows of the edited transaction's id from the page changes nothing; and a
    quantity that passes the check keeps passing when it is raised. *)
Theorem validate_stock_own_row_and_monotone (txs : list Edit.PageTx) (r : Edit.EditResponses)
  (transactionId typeId weightClassId : string) (q : Z) :
  Edit.validateStock (filter (fun t => negb (String.eqb (Edit.pt_id t) transactionId)) txs)
    r transactionId typeId weightClassId q
  = Edit.validateStock txs r transactionId typeId weightClassId q
  /\ (forall q', q <= q' ->
      Edit.validateStock txs r transactionId typeId weightClassId q = None ->
      Edit.validateStock txs r transactionId typeId weightClassId q' = None).
Proof.
  split.
  - unfold Edit.validateStock. rewrite filter_drop_implied; [reflexivity|].
    intros t Ht. apply andb_prop in Ht as [Ht _]. apply andb_prop in Ht as [Ht _].
    apply andb_prop in Ht as [Ht _]. exact Ht.
  - intros q' Hq. unfold Edit.validateStock.
    destruct (Edit.er_validate r) as [rows|m]; [|discriminate].
    match goal with |- context [Z.ltb (q + ?a) ?b] => destruct (Z.ltb_spec (q + a) b) end;
      [discriminate|].
    intros _. match goal with |- context [Z.ltb (q' + ?a) ?b] => destruct (Z.ltb_spec (q' + a) b) end;
      [lia|reflexivity].
Qed.

Lemma validate_stock_own_row_and_monotone_witness :
  Edit.validateStock [Edit.mkPageTx "t1" "ADD" "1" "2" 30; Edit.mkPageTx "t2" "ADD" "1" "2" 10]
    (Edit.mkEditResponses (Ok [Some (-25); Some 5]) None) "t1" "1" "2" 25 = None.
Proof.
  apply (proj2 (validate_stock_own_row_and_monotone
    [Edit.mkPageTx "t1" "ADD" "1" "2" 30; Edit.mkPageTx "t2" "ADD" "1" "2" 10]
    (Edit.mkEditResponses (Ok [Some (-25); Some 5]) None) "t1" "1" "2" 20) 25 ltac:(lia)).
  vm_compute. reflexivity.
Defined.

(** X16: [handleEditSubmit] touches the remote store only for a
    transaction being edited whose form has a transaction type, a lobster
    type, a weight class, a positive quantity and a date: when a field check
    fails it issues no call at all. *)
Theorem edit_checks_before_any_call (editing : option Edit.EditTx) (f : Edit.EditForm)
  (txs : list Edit.PageTx) (r : Edit.EditResponses) :
  fst (Edit.handleEditSubmit editing f txs r) <> [] ->
  editing <> None
  /\ Edit.ef_transaction_type f <> "" /\ Edit.ef_type_id f <> "" /\ Edit.ef_weight_class_id f <> ""
  /\ (exists q, Edit.ef_quantity f = Some q /\ 0 < q) /\ Edit.ef_transaction_date f <> "".
Proof.
  unfold Edit.handleEditSubmit. intros Hops.
  destruct editing as [et|]; [|contradiction Hops; reflexivity].
  destruct (String.eqb_spec (Edit.ef_transaction_type f) "") as [|Htt];
    [contradiction Hops; reflexivity|].
  destruct (String.eqb_spec (Edit.ef_type_id f) "") as [|Hty]; [contradiction Hops; reflexivity|].
  destruct (String.eqb_spec (Edit.ef_weight_class_id f) "") as [|Hwc];
    [contradiction Hops; reflexivity|].
  destruct (Edit.ef_quantity f) as [q|]; [|contradiction Hops; reflexivity].
  destruct (Z.leb_spec q 0) as [|Hq]; [contradiction Hops; reflexivity|].
  destruct (String.eqb_spec (Edit.ef_transaction_date f) "") as [|Hdt];
    [contradiction Hops; reflexivity|].
  repeat split; try assumption; [discriminate|exists q; split; [reflexivity|lia]].
Qed.

Lemma edit_checks_before_any_call_witness :
  Edit.ef_weight_class_id (Edit.mkEditForm "ADD" "1" "2" (Some 4) "2024-01-20" "" "") <> "".
Proof.
  destruct (edit_checks_before_any_call (Some (Edit.mkEditTx "t1" "DEATH"))
    (Edit.mkEditForm "ADD" "1" "2" (Some 4) "2024-01-20" "" "") []
    (Edit.mkEditResponses (Ok []) None) ltac:(cbn; discriminate)) as (_ & _ & _ & Hw & _).
  exact Hw.
Defined.

(** ** Transaction history page *)

Lemma load_loaded_stock (iso_day : string -> option string) (f : Transaksi.Filters)
  (ipp : Z) (srv : Transaksi.TServer) (d : list Transaction) (c i o : Z) :
  Transaksi.load iso_day f ipp srv = Transaksi.Loaded d c i o ->
  exists dfs tfs stockData,
    Transaksi.date_filters iso_day f = Some dfs
    /\ (if String.eqb (Transaksi.f_lobsterType f) "all" then Some []
        else match Transaksi.srv_type_id srv (Transaksi.f_lobsterType f) with
             | Ok id => Some [Transaksi.FEq "type_id" (Transaksi.VNum id)]
             | Err _ => None
             end) = Some tfs
    /\ Transaksi.srv_rows srv
         (Transaksi.add_filters
            (Transaksi.mkQuery "transactions" "transaction_type, quantity" false []) (app dfs tfs))
       = Ok stockData
    /\ i = Transaksi.incoming stockData /\ o = TransaksiTx.outgoing stockData.
Proof.
  unfold Transaksi.load. destruct (Transaksi.page_range _ _) as [from to].
  destruct (Transaksi.date_filters iso_day f) as [dfs|]; [|discriminate].
  destruct (if String.eqb (Transaksi.f_lobsterType f) "all" then Some [] else _) as [tfs|] eqn:Htf;
    [|discriminate].
  destruct (Transaksi.srv_rows srv (Transaksi.add_filters (Transaksi.mkQuery _ Transaksi.page_select _ _) _));
    [|discriminate].
  destruct (Transaksi.srv_rows srv (Transaksi.add_filters
              (Transaksi.mkQuery "transactions" "transaction_type, quantity" false []) _))
    as [stockData|] eqn:Hs; [|discriminate].
  intros H. injection H as <- <- <- <-.
  exists dfs, tfs, stockData. repeat split; assumption.
Qed.

Lemma date_filters_dates (iso_day : string -> option string) (f f' : Transaksi.Filters) :
  Transaksi.f_startDate f' = Transaksi.f_startDate f ->
  Transaksi.f_endDate f' = Transaksi.f_endDate f ->
  Transaksi.date_filters iso_day f' = Transaksi.date_filters iso_day f.
Proof. intros Hs He. unfold Transaksi.date_filters. now rewrite Hs, He. Qed.

(** X17: the incoming and outgoing stock cards of the history page follow
    the date range and the lobster type only: two loads that both succeed
    with filters that differ in the transaction type, the page or the rows
    per page show the same totals. *)
Theorem history_totals_ignore_type_and_page (iso_day : string -> option string)
  (f f' : Transaksi.Filters) (ipp ipp' : Z) (srv : Transaksi.TServer)
  (d d' : list Transaction) (c c' i i' o o' : Z) :
  Transaksi.f_startDate f' = Transaksi.f_startDate f ->
  Transaksi.f_endDate f' = Transaksi.f_endDate f ->
  Transaksi.f_lobsterType f' = Transaksi.f_lobsterType f ->
  Transaksi.load iso_day f ipp srv = Transaksi.Loaded d c i o ->
  Transaksi.load iso_day f' ipp' srv = Transaksi.Loaded d' c' i' o' ->
  i' = i /\ o' = o.
Proof.
  intros Hs He Hl H H'.
  destruct (load_loaded_stock iso_day f ipp srv d c i o H) as (dfs & tfs & sd & Hd & Ht & Hr & -> & ->).
  destruct (load_loaded_stock iso_day f' ipp' srv d' c' i' o' H')
    as (dfs' & tfs' & sd' & Hd' & Ht' & Hr' & -> & ->).
  rewrite (date_filters_dates iso_day f f' Hs He), Hd in Hd'. injection Hd' as <-.
  rewrite Hl, Ht in Ht'. injection Ht' as <-.
  rewrite Hr in Hr'. injection Hr' as <-. split; reflexivity.
Qed.

(** The store of the examples: a lobster type [Pearl] of id 1 and, for any
    query, the same rows. *)
Lemma history_totals_ignore_type_and_page_witness :
  let srv := Transaksi.mkTServer
               (fun n => if String.eqb n "Pearl" then Ok 1 else Err "no row")
               (fun _ => Ok [mkTransaction "ADD" (Some 9) 1 (mkLocalDate 2024 0 3);
                             mkTransaction "DEATH" (Some 2) 1 (mkLocalDate 2024 0 4)])
               (fun _ => Some 2) in
  Transaksi.incomingStock
    (Transaksi.fetchTransactions (fun s => Some s)
       (Transaksi.mkFilters "" "" "Pearl" "DEATH" 3) 10 srv
       (Transaksi.mkTState [] 0 0 0 true None)) = 9.
Proof.
  intros srv.
  destruct (history_totals_ignore_type_and_page (fun s => Some s)
    (Transaksi.mkFilters "" "" "Pearl" "all" 1) (Transaksi.mkFilters "" "" "Pearl" "DEATH" 3)
    25 10 srv
    [mkTransaction "ADD" (Some 9) 1 (mkLocalDate 2024 0 3);
     mkTransaction "DEATH" (Some 2) 1 (mkLocalDate 2024 0 4)]
    [mkTransaction "ADD" (Some 9) 1 (mkLocalDate 2024 0 3);
     mkTransaction "DEATH" (Some 2) 1 (mkLocalDate 2024 0 4)]
    2 2 9 9 2 2 eq_refl eq_refl eq_refl ltac:(vm_compute; reflexivity) ltac:(vm_compute; reflexivity))
    as [Hi _].
  vm_compute. reflexivity.
Defined.



(** X19: whatever the user does with the filter controls, the pagination
    buttons and [clearFilters], the page of the filters never drops below 1
    when it starts at 1 or above (as it does, at 1). *)
Theorem filters_page_positive (acts : list Transaksi.FilterAction) (f : Transaksi.Filters) :
  1 <= Transaksi.f_page f -> 1 <= Transaksi.f_page (fold_left Transaksi.step acts f).
Proof.
  revert f. induction acts as [|a acts IH]; intros f Hf; [exact Hf|].
  cbn [fold_left]. apply IH.
  destruct a; cbn; try lia.
  - unfold Transaksi.handlePreviousPage.
    destruct (Z.ltb_spec 1 (Transaksi.f_page f)); cbn; lia.
  - unfold Transaksi.handleNextPage.
    destruct (Z.ltb_spec (Transaksi.f_page f) totalPages); cbn; lia.
Qed.

Lemma filters_page_positive_witness :
  Transaksi.f_page (fold_left Transaksi.step
    [Transaksi.NextPage 3; Transaksi.PreviousPage; Transaksi.PreviousPage;
     Transaksi.PreviousPage; Transaksi.SetLobsterType "Pearl"] Transaksi.initial_filters) = 1
  /\ 1 <= Transaksi.f_page (fold_left Transaksi.step
    [Transaksi.NextPage 3; Transaksi.PreviousPage; Transaksi.PreviousPage;
     Transaksi.PreviousPage; Transaksi.SetLobsterType "Pearl"] Transaksi.initial_filters).
Proof.
  split; [reflexivity|].
  apply filters_page_positive. cbn. lia.
Defined.

(** X20: with a positive number of rows per page, [handleNextPage] given
    [Math.ceil(totalItems / itemsPerPage)] moves to the next page exactly
    when the next page's first row index is below [totalItems], that is when
    the next page has rows to show. *)
Theorem next_page_only_to_rows (totalItems itemsPerPage : Z) (f : Transaksi.Filters) :
  0 < itemsPerPage ->
  Transaksi.f_page (Transaksi.handleNextPage (Transaksi.totalPages totalItems itemsPerPage) f)
  = if fst (Transaksi.page_range (Transaksi.f_page f + 1) itemsPerPage) <? totalItems
    then Transaksi.f_page f + 1 else Transaksi.f_page f.
Proof.
  intros Hp. unfold Transaksi.handleNextPage, Transaksi.totalPages, Transaksi.page_range. cbn [fst].
  replace (Transaksi.f_page f + 1 - 1) with (Transaksi.f_page f) by lia.
  set (p := Transaksi.f_page f).
  pose proof (Z.div_mod (- totalItems) itemsPerPage ltac:(lia)) as Hdm.
  pose proof (Z.mod_pos_bound (- totalItems) itemsPerPage Hp) as Hb.
  set (k := - totalItems / itemsPerPage) in *.
  set (m := - totalItems mod itemsPerPage) in *.
  destruct (Z.ltb_spec p (- k)) as [H1|H1]; destruct (Z.ltb_spec (p * itemsPerPage) totalItems) as [H2|H2];
    try reflexivity; exfalso; nia.
Qed.

Lemma next_page_only_to_rows_witness :
  Transaksi.f_page (Transaksi.handleNextPage (Transaksi.totalPages 20 10) (Transaksi.mkFilters "" "" "all" "all" 2)) = 2
  /\ Transaksi.f_page (Transaksi.handleNextPage (Transaksi.totalPages 21 10) (Transaksi.mkFilters "" "" "all" "all" 2)) = 3.
Proof.
  split.
  - rewrite (next_page_only_to_rows 20 10 (Transaksi.mkFilters "" "" "all" "all" 2) ltac:(lia)).
    reflexivity.
  - rewrite (next_page_only_to_rows 21 10 (Transaksi.mkFilters "" "" "all" "all" 2) ltac:(lia)).
    reflexivity.
Defined.

(** ** PDF file name *)

Lemma name_char_not_space (c : ascii) :
  Transaksi.is_name_char c = true -> FormSchema.is_js_space c = false.
Proof.
  intros H. destruct c as [b0 b1 b2 b3 b4 b5 b6 b7].
  destruct b0, b1, b2, b3, b4, b5, b6, b7; vm_compute in H |- *; congruence.
Qed.

Lemma replace_space_runs_no_space (l : list ascii) (b : bool) :
  forallb Transaksi.is_name_char l = true -> Transaksi.replace_space_runs b l = l.
Proof.
  revert b. induction l as [|c l IH]; intros b H; [reflexivity|].
  cbn [forallb] in H. apply andb_prop in H as [Hc Hl]. cbn [Transaksi.replace_space_runs].
  rewrite (name_char_not_space c Hc). f_equal. now apply IH.
Qed.

Lemma forallb_filter_self {X : Type} (p : X -> bool) (l : list X) : forallb p (filter p l) = true.
Proof.
  induction l as [|x l IH]; [reflexivity|]. cbn.
  destruct (p x) eqn:Hp; cbn; [rewrite Hp|]; assumption.
Qed.

Lemma filter_all {X : Type} (p : X -> bool) (l : list X) : forallb p l = true -> filter p l = l.
Proof.
  induction l as [|x l IH]; [reflexivity|]. cbn. intros H.
  apply andb_prop in H as [Hx Hl]. rewrite Hx. f_equal. now apply IH.
Qed.

(** X21: the lobster-type part of the PDF file name holds only the
    characters [A-Z], [a-z], [0-9], [_] and [-], and cleaning it again
    leaves it as it is. *)
Theorem sanitize_name_chars_idempotent (s : string) :
  forallb Transaksi.is_name_char (list_ascii_of_string (Transaksi.sanitize s)) = true
  /\ Transaksi.sanitize (Transaksi.sanitize s) = Transaksi.sanitize s.
Proof.
  unfold Transaksi.sanitize. rewrite list_ascii_of_string_of_list_ascii.
  split; [apply forallb_filter_self|].
  rewrite replace_space_runs_no_space by apply forallb_filter_self.
  rewrite filter_all by apply forallb_filter_self. reflexivity.
Qed.

(** ** Quantity of the form schema *)


